(** * The prerendering pipeline of vite-plugin-ssr (node/prerender.ts)

    A shallow embedding of the functions of [node/prerender.ts] and the
    properties of its behaviour.  JavaScript values are a small inductive
    type; objects keep their keys in insertion order, as the runtime does;
    code that throws returns a [result]; code that mutates an argument
    returns the argument as it is after the call. *)

From Stdlib Require Import String Ascii List ZArith Bool Arith Lia DecimalString.
Import ListNotations.
Open Scope list_scope.

Set Warnings "-register-all".

Notation "a ^^ b" := (String.append a b) (at level 60, right associativity).

(** ** JavaScript values *)

Inductive value : Type :=
| VUndefined
| VNull
| VBool (b : bool)
| VNum (n : Z)
| VStr (s : string)
| VFun (f : nat)
| VArr (items : list value)
| VObj (props : list (string * value)).

(** A plain object: its own enumerable properties, in insertion order. *)
Definition object : Type := list (string * value).

Definition typeof (v : value) : string :=
  match v with
  | VUndefined => "undefined"
  | VNull => "object"
  | VBool _ => "boolean"
  | VNum _ => "number"
  | VStr _ => "string"
  | VFun _ => "function"
  | VArr _ => "object"
  | VObj _ => "object"
  end.

(** ToBoolean: what [if (v)] and [!v] test. *)
Definition truthy (v : value) : bool :=
  match v with
  | VUndefined | VNull => false
  | VBool b => b
  | VNum n => negb (Z.eqb n 0)
  | VStr s => negb (String.eqb s "")
  | VFun _ | VArr _ | VObj _ => true
  end.

Definition isUndefined (v : value) : bool :=
  match v with VUndefined => true | _ => false end.

Definition isNull (v : value) : bool :=
  match v with VNull => true | _ => false end.

(** [s.startsWith(p)] *)
Definition startsWith (s p : string) : bool := String.prefix p s.

(** *** Objects *)

Fixpoint obj_get (k : string) (o : object) : option value :=
  match o with
  | [] => None
  | (k', v) :: rest => if String.eqb k' k then Some v else obj_get k rest
  end.

Definition obj_has (k : string) (o : object) : bool :=
  match obj_get k o with Some _ => true | None => false end.

(** [o[k] = v]: an existing key keeps its place, a new key goes last. *)
Fixpoint obj_set (k : string) (v : value) (o : object) : object :=
  match o with
  | [] => [(k, v)]
  | (k', v') :: rest =>
      if String.eqb k' k then (k, v) :: rest else (k', v') :: obj_set k v rest
  end.

(** [Object.keys(o)] *)
Definition obj_keys (o : object) : list string := map fst o.

(** The keys of a runtime object are pairwise distinct. *)
Fixpoint distinct (ks : list string) : bool :=
  match ks with
  | [] => true
  | k :: rest => negb (existsb (String.eqb k) rest) && distinct rest
  end.

Definition wf_obj (o : object) : bool := distinct (obj_keys o).

(** [v[k]], [undefined] when [v] has no such property. *)
Definition getProp (v : value) (k : string) : value :=
  match v with
  | VObj o => match obj_get k o with Some x => x | None => VUndefined end
  | _ => VUndefined
  end.

Definition setProp (v : value) (k : string) (x : value) : value :=
  match v with
  | VObj o => VObj (obj_set k x o)
  | _ => v
  end.

(** Modelled from the spec: [objectAssign] of the utils module, whose file is
    not among the sources; the spec calls it a shallow merge into the target
    (it is [Object.assign(target, source)]): every key of the source is
    written to the target, in the source's order. *)
Definition objectAssign (target source : object) : object :=
  fold_left (fun t kv => obj_set (fst kv) (snd kv) t) source target.

(** Modelled from the spec: [isPlainObject] of the utils module, whose file
    is not among the sources: a plain key/value record, not an array, not a
    primitive, not null. *)
Definition isPlainObject (v : value) : bool :=
  match v with VObj _ => true | _ => false end.

(** Modelled from the spec: [isCallable] of the utils module, whose file is
    not among the sources: the value is a function. *)
Definition isCallable (v : value) : bool :=
  match v with VFun _ => true | _ => false end.

(** Modelled from the spec: the two-argument [hasProp] of the utils module,
    whose file is not among the sources: [obj] is an object that has the
    property.  The property names used here (url, pageContext,
    globalContext, stack) are no array index and no inherited property, so an
    array has none of them. *)
Definition hasProp (obj : value) (prop : string) : bool :=
  match obj with
  | VObj o => obj_has prop o
  | _ => false
  end.

(** Modelled from the spec: the three-argument [hasProp] of the utils module,
    whose file is not among the sources.  The tag names the [typeof] of the
    property, but for the tag null, which stands for the value [null]: the
    call sites fix this reading, since the normalizer writes
    [pageContext = null] and then requires the tag object of it, and prints
    [typeof url] when the tag string fails. *)
Definition hasPropOfType (obj : value) (prop : string) (type : string) : bool :=
  hasProp obj prop &&
  (if String.eqb type "null" then isNull (getProp obj prop)
   else String.eqb (typeof (getProp obj prop)) type).

(** Modelled from the spec: [isObjectWithKeys] of the utils module, whose
    file is not among the sources: a plain object none of whose keys is
    outside [keys]. *)
Definition isObjectWithKeys (obj : value) (keys : list string) : bool :=
  match obj with
  | VObj o => forallb (fun k => existsb (String.eqb k) keys) (obj_keys o)
  | _ => false
  end.

(** ** Errors *)

(** What a run can throw: [assertUsage] throws a usage error with its
    message, [assert] an internal error, and a user hook whatever it throws. *)
Inductive error : Type :=
| UsageError (msg : string)
| AssertionFailure
| HookFailure (err : value).

Inductive result (A : Type) : Type :=
| Ok (a : A)
| Err (e : error).
Arguments Ok {A} a.
Arguments Err {A} e.

Definition isUsageError {A} (r : result A) : bool :=
  match r with Err (UsageError _) => true | _ => false end.

Definition bindR {A B} (r : result A) (k : A -> result B) : result B :=
  match r with
  | Ok a => k a
  | Err e => Err e
  end.

(** Modelled from the spec: [assertUsage] of the utils module, whose file is
    not among the sources: a fatal usage error with the message when the
    condition does not hold. *)
Definition assertUsage (condition : bool) (errorMessage : string) : result unit :=
  if condition then Ok tt else Err (UsageError errorMessage).

(** Modelled from the spec: [assert] of the utils module, whose file is not
    among the sources: an internal error when the condition does not hold. *)
Definition assert (condition : bool) : result unit :=
  if condition then Ok tt else Err AssertionFailure.

(** [list.forEach(f)] where [f] may throw: the first throw ends the loop. *)
Fixpoint forEach {A} (f : A -> result unit) (l : list A) : result unit :=
  match l with
  | [] => Ok tt
  | x :: rest => bindR (f x) (fun _ => forEach f rest)
  end.

(** The message [msg] has [part] in it. *)
Definition mentions (msg part : string) : Prop :=
  exists pre post, msg = pre ^^ part ^^ post.

Definition dquote : string := String (ascii_of_nat 34) EmptyString.

(** ** The hook normalizer *)

Record PrerenderEntry : Type := mkEntry {
  url : string;
  pageContext : value
}.

Module Normalizer.

Section WithSourceFile.

Variable prerenderSourceFile : string.

Definition errMsg1 : string :=
  "The `prerender()` hook defined in `" ^^ prerenderSourceFile
    ^^ "` returned an invalid value".

Definition errMsg2 : string :=
  "Make sure your `prerender()` hook returns an object `{ url, pageContext }` or an array of such objects.".

Definition msgInvalid : string := errMsg1 ^^ ". " ^^ errMsg2.

Definition msgUrlMissing : string := errMsg1 ^^ ": `url` is missing. " ^^ errMsg2.

Definition msgUrlNotString (u : value) : string :=
  errMsg1 ^^ ": `url` should be a string (but we got `typeof url === "
    ^^ dquote ^^ typeof u ^^ dquote ^^ "`).".

Definition msgUrlNoSlash (u : string) : string :=
  errMsg1 ^^ ": the `url` with value `" ^^ u
    ^^ "` doesn't start with `/`. Make sure each URL starts with `/`.".

Definition msgUnexpectedKey (key : string) : string :=
  errMsg1 ^^ ": unexpected object key `" ^^ key ^^ "` " ^^ errMsg2.

Definition msgPageContext : string :=
  "The `prerender()` hook exported by " ^^ prerenderSourceFile
    ^^ " returned an invalid `pageContext` value: make sure `pageContext` is a plain JavaScript object.".

Definition asString (v : value) : string :=
  match v with VStr s => s | _ => "" end.

Definition allowedKey (key : string) : bool :=
  String.eqb key "url" || String.eqb key "pageContext".

(** The inner [normalize].  It assigns to its argument, so it returns the
    element as it is after the call together with what it returns or
    throws. *)
Definition normalize (prerenderElement : value) : value * result PrerenderEntry :=
  match prerenderElement with
  | VStr s => (prerenderElement, Ok (mkEntry s VNull))
  | _ =>
    if negb (isPlainObject prerenderElement) then
      (prerenderElement, Err (UsageError msgInvalid))
    else if negb (hasProp prerenderElement "url") then
      (prerenderElement, Err (UsageError msgUrlMissing))
    else if negb (hasPropOfType prerenderElement "url" "string") then
      (prerenderElement,
       Err (UsageError (msgUrlNotString (getProp prerenderElement "url"))))
    else
      let u := asString (getProp prerenderElement "url") in
      if negb (startsWith u "/") then
        (prerenderElement, Err (UsageError (msgUrlNoSlash u)))
      else
        match find (fun key => negb (allowedKey key))
                   (obj_keys (match prerenderElement with VObj o => o | _ => [] end))
        with
        | Some key => (prerenderElement, Err (UsageError (msgUnexpectedKey key)))
        | None =>
          let element' :=
            if negb (hasProp prerenderElement "pageContext")
            then setProp prerenderElement "pageContext" VNull
            else prerenderElement in
          if negb (hasPropOfType element' "pageContext" "object") then
            (element', Err (UsageError msgPageContext))
          else
            (element', Ok (mkEntry u (getProp element' "pageContext")))
        end
  end.

(** [prerenderResult.map(normalize)]: elements are normalized in order; a
    throw leaves the later elements untouched. *)
Fixpoint mapNormalize (items : list value) : list value * result (list PrerenderEntry) :=
  match items with
  | [] => ([], Ok [])
  | x :: rest =>
      match normalize x with
      | (x', Err e) => (x' :: rest, Err e)
      | (x', Ok entry) =>
          let (rest', r) := mapNormalize rest in
          (x' :: rest', bindR r (fun entries => Ok (entry :: entries)))
      end
  end.

Definition normalizePrerenderResult (prerenderResult : value)
  : value * result (list PrerenderEntry) :=
  match prerenderResult with
  | VArr items =>
      let (items', r) := mapNormalize items in (VArr items', r)
  | _ =>
      let (element', r) := normalize prerenderResult in
      (element', bindR r (fun entry => Ok [entry]))
  end.

End WithSourceFile.

End Normalizer.

(** ** The state of a run *)

(** A page-server file, as the page-file loader hands it over once loaded:
    [fileExports] are the module's exports. *)
Record PageFile : Type := mkPageFile {
  fileType : string;
  isDefaultPageFile : bool;
  filePath : string;
  pageId : string;
  fileExports : option object
}.

(** [p.fileExports?.name] *)
Definition fileExport (p : PageFile) (name : string) : value :=
  match fileExports p with
  | Some e => getProp (VObj e) name
  | None => VUndefined
  end.

Record DoNotPrerenderEntry : Type := mkDoNotPrerender {
  dnp_pageId : string;
  pageServerFilePath : string
}.

Definition DoNotPrerenderList : Type := list DoNotPrerenderEntry.

(** The two fields of a page context that [PrerenderedPageIds] declares. *)
Record PrerenderedPage : Type := mkPrerenderedPage {
  pp_url : string;
  _prerenderSourceFile : option string
}.

(** [Record<string, ...>], in the order [Object.entries] lists it. *)
Definition PrerenderedPageIds : Type := list (string * PrerenderedPage).

Record HtmlFile : Type := mkHtmlFile {
  hf_url : string;
  hf_pageContext : object;
  htmlString : string;
  pageContextSerialized : option string;
  doNotCreateExtraDirectory : bool;
  hf_pageId : option string
}.

(** What a run does that the outside can see, in the order it happens. *)
Inductive event : Type :=
| EvDocument (url : string)
| EvWrite (filePathRelative fileContent : string)
| EvSink (filePathRelative fileContent : string)
| EvContradictionCheck
| EvMissingCheck.

(** The mutable objects the phases share.  [calls] and [events] are not in
    the program: they record each hook invocation with its arguments and
    each rendered document, write and validator check, so that properties
    about what has happened by some point can be stated. *)
Record State : Type := mkState {
  globalContext : object;
  prerenderPageContexts : list object;
  doNotPrerenderList : DoNotPrerenderList;
  warned : list string;
  calls : list (nat * list value);
  events : list event
}.

Definition set_globalContext (g : object) (s : State) : State :=
  mkState g (prerenderPageContexts s) (doNotPrerenderList s) (warned s) (calls s) (events s).

Definition set_prerenderPageContexts (l : list object) (s : State) : State :=
  mkState (globalContext s) l (doNotPrerenderList s) (warned s) (calls s) (events s).

Definition set_doNotPrerenderList (l : DoNotPrerenderList) (s : State) : State :=
  mkState (globalContext s) (prerenderPageContexts s) l (warned s) (calls s) (events s).

Definition set_warned (l : list string) (s : State) : State :=
  mkState (globalContext s) (prerenderPageContexts s) (doNotPrerenderList s) l (calls s) (events s).

Definition set_calls (l : list (nat * list value)) (s : State) : State :=
  mkState (globalContext s) (prerenderPageContexts s) (doNotPrerenderList s) (warned s) l (events s).

Definition set_events (l : list event) (s : State) : State :=
  mkState (globalContext s) (prerenderPageContexts s) (doNotPrerenderList s) (warned s) (calls s) l.

(** *** State and exceptions *)

Definition M (A : Type) : Type := State -> State * result A.

Definition ret {A} (a : A) : M A := fun s => (s, Ok a).

Definition bind {A B} (m : M A) (k : A -> M B) : M B :=
  fun s =>
    match m s with
    | (s', Ok a) => k a s'
    | (s', Err e) => (s', Err e)
    end.

Definition throw {A} (e : error) : M A := fun s => (s, Err e).

Definition lift {A} (r : result A) : M A := fun s => (s, r).

Definition get : M State := fun s => (s, Ok s).

Definition modify (f : State -> State) : M unit := fun s => (f s, Ok tt).

Notation "x <- m ;; k" := (bind m (fun x => k))
  (at level 61, m at next level, right associativity).
Notation "m ;; k" := (bind m (fun _ => k))
  (at level 61, right associativity).

(** A loop over [l] whose body may throw: the first throw ends it.  It stands
    for [forEach], and for [Promise.all(l.map(...))] with the units run one
    after the other in submission order. *)
Fixpoint forEachM {A} (f : A -> M unit) (l : list A) : M unit :=
  match l with
  | [] => ret tt
  | x :: rest => f x ;; forEachM f rest
  end.

Definition emit (e : event) : M unit :=
  modify (fun s => set_events (events s ++ [e]) s).

(** Modelled from the spec: [assertWarning] of the utils module, whose file
    is not among the sources: when the condition does not hold the message is
    printed, at most once per distinct message (every call here passes
    onlyOnce), and the run goes on. *)
Definition assertWarning (condition : bool) (errorMessage : string) : M unit :=
  if condition then ret tt
  else modify (fun s =>
         if existsb (String.eqb errorMessage) (warned s) then s
         else set_warned (warned s ++ [errorMessage]) s).

(** What calling a user function does. *)
Inductive outcome : Type :=
| Returns (v : value)
| Throws (err : value).

(** [throwPrerenderError]: the error is thrown as it is when it carries a
    stack and wrapped in an [Error] otherwise; both are a [HookFailure]. *)
Definition throwPrerenderError {A} (err : value) : M A := throw (HookFailure err).

(** What the routing resolver answers. *)
Inductive RouteResult : Type :=
| RouteHookError (hookError : value)
| RouteAddendum (pageContextAddendum : object).

Record PageRoute : Type := mkPageRoute {
  pr_pageId : string;
  pageRouteFile : option value;
  filesystemRoute : string
}.

(** [ctx.url === url] *)
Definition hasUrl (u : string) (ctx : object) : bool :=
  match obj_get "url" ctx with
  | Some (VStr s) => String.eqb s u
  | _ => false
  end.

(** The object that [find] returned is changed in place. *)
Fixpoint updateFirst (p : object -> bool) (f : object -> object) (l : list object)
  : list object :=
  match l with
  | [] => []
  | x :: rest => if p x then f x :: rest else x :: updateFirst p f rest
  end.

Definition inDoNotPrerenderList (l : DoNotPrerenderList) (id : string)
  : option DoNotPrerenderEntry :=
  find (fun p => String.eqb (dnp_pageId p) id) l.

Definition isSome {A} (o : option A) : bool :=
  match o with Some _ => true | None => false end.

(** A [string | null] field read back from a page context. *)
Definition asOptString (v : value) : option string :=
  match v with VStr s => Some s | _ => None end.

(** Truthiness of a [string | null]. *)
Definition truthyOpt (o : option string) : bool :=
  match o with Some s => negb (String.eqb s "") | None => false end.

Definition markerKey : string := "_pageContextAlreadyProvidedByPrerenderHook".

(** ** The phases *)

Module Pipeline.

Section WithCollaborators.

(** Calling the user function [f] with arguments: hooks and the sink. *)
Variable call : nat -> list value -> outcome.

(** The collaborators of the pipeline, whose code is outside it. *)
Variable route : object -> RouteResult.
Variable loadPageFilesServer : object -> object.
Variable prerenderPage : object -> result (string * option string).
Variable renderStatic404Page : object -> option (string * object).
Variable getFileUrl : string -> string -> bool -> string.
Variable isErrorPage : string -> bool.
Variable isStaticRoute : string -> bool.

Definition invoke (f : nat) (args : list value) : M outcome :=
  modify (fun s => set_calls (calls s ++ [(f, args)]) s) ;;
  ret (call f args).

(** *** Phase 1: the prerender() hooks *)

Definition msgPrerenderNotFunction (file : string) : string :=
  "`export { prerender }` of " ^^ file ^^ " should be a function.".

(** The body of [result.forEach] in [callPrerenderHooks]: find or create the
    page context of the URL, then merge the hook's [pageContext] into it.
    The url of an entry is a string, so [assert(typeof url === 'string')]
    holds; past the third assertion the pageContext is null or a record, so
    [if (pageContext)] is the test for a record. *)
Definition addPrerenderEntry (prerenderSourceFile : string) (entry : PrerenderEntry)
  : M unit :=
  lift (assert (startsWith (url entry) "/")) ;;
  lift (assert (isNull (pageContext entry) || isPlainObject (pageContext entry))) ;;
  s <- get ;;
  (match find (hasUrl (url entry)) (prerenderPageContexts s) with
   | Some _ => ret tt
   | None =>
       let pageContextFound :=
         obj_set "url" (VStr (url entry))
           (obj_set "_prerenderSourceFile" (VStr prerenderSourceFile)
              (globalContext s)) in
       modify (set_prerenderPageContexts (prerenderPageContexts s ++ [pageContextFound]))
   end) ;;
  match pageContext entry with
  | VObj pc =>
      modify (fun s =>
        set_prerenderPageContexts
          (updateFirst (hasUrl (url entry))
             (fun found => objectAssign found (objectAssign [(markerKey, VBool true)] pc))
             (prerenderPageContexts s)) s)
  | _ => ret tt
  end.

(** The unit of work of [callPrerenderHooks] for one page-server file. *)
Definition prerenderHookTask (p : PageFile) : M unit :=
  if truthy (fileExport p "doNotPrerender") then
    modify (fun s =>
      set_doNotPrerenderList
        (doNotPrerenderList s ++ [mkDoNotPrerender (pageId p) (filePath p)]) s)
  else
    let prerender := fileExport p "prerender" in
    if negb (truthy prerender) then ret tt
    else
      lift (assertUsage (isCallable prerender) (msgPrerenderNotFunction (filePath p))) ;;
      let prerenderSourceFile := filePath p in
      lift (assert (truthy (VStr prerenderSourceFile))) ;;
      match prerender with
      | VFun f =>
          r <- invoke f [] ;;
          match r with
          | Throws err => throwPrerenderError err
          | Returns prerenderResult =>
              result <- lift (snd (Normalizer.normalizePrerenderResult
                                     prerenderSourceFile prerenderResult)) ;;
              forEachM (addPrerenderEntry prerenderSourceFile) result
          end
      | _ => ret tt
      end.

(** The units are run in the order in which their hooks come to be applied,
    taken here to be the order of the page files. *)
Definition callPrerenderHooks (pageFilesAll : list PageFile) : M unit :=
  forEachM prerenderHookTask
    (filter (fun p => String.eqb (fileType p) ".page.server") pageFilesAll).

(** *** Phase 2: pages with a static route *)

Definition staticRouteTask (pageRoute : PageRoute) : M unit :=
  s <- get ;;
  if isSome (inDoNotPrerenderList (doNotPrerenderList s) (pr_pageId pageRoute)) then ret tt
  else
    let static : option (result string) :=
      match pageRouteFile pageRoute with
      | Some routeValue =>
          match routeValue with
          | VStr r =>
              if isStaticRoute r
              then Some (bindR (assert (startsWith r "/")) (fun _ => Ok r))
              else None
          | _ => None
          end
      | None => Some (Ok (filesystemRoute pageRoute))
      end in
    match static with
    | None => ret tt
    | Some r =>
        u <- lift r ;;
        lift (assert (startsWith u "/")) ;;
        if isSome (find (hasUrl u) (prerenderPageContexts s)) then ret tt
        else
          let pageContext0 :=
            obj_set "_pageId" (VStr (pr_pageId pageRoute))
              (obj_set "routeParams" (VObj [])
                 (obj_set "url" (VStr u)
                    (obj_set "_prerenderSourceFile" VNull (globalContext s)))) in
          let pageContext1 := objectAssign pageContext0 (loadPageFilesServer pageContext0) in
          modify (fun s => set_prerenderPageContexts (prerenderPageContexts s ++ [pageContext1]) s)
    end.

Definition handlePagesWithStaticRoutes (pageRoutes : list PageRoute) : M unit :=
  forEachM staticRouteTask pageRoutes.

(** *** Phase 3: the onBeforePrerender() hook *)

Definition msgOnlyOneHook : string :=
  "There can be only one `onBeforePrerender()` hook. If you need to be able to define several, open a new GitHub issue.".

Definition msgHookNotFunction (file : string) : string :=
  "`export { onBeforePrerender }` of " ^^ file ^^ " should be a function.".

Definition errPrefix (file : string) : string :=
  "The `onBeforePrerender()` hook exported by `" ^^ file ^^ "`".

Definition msgHookReturn (file : string) : string :=
  errPrefix file ^^ " should return `null`, `undefined`, or a plain JavaScript object `{ globalContext: { /* ... */ } }`.".

Definition msgHookGlobalContext (file : string) : string :=
  errPrefix file ^^ " returned `{ globalContext }` but `globalContext` should be a plain JavaScript object.".

(** The hooks of [callOnBeforePrerenderHook]: file path and export of every
    default page-server file whose onBeforePrerender export is truthy. *)
Definition onBeforePrerenderHooks (pageFilesAll : list PageFile) : list (string * value) :=
  map (fun p => (filePath p, fileExport p "onBeforePrerender"))
    (filter (fun p => truthy (fileExport p "onBeforePrerender"))
       (filter (fun p => String.eqb (fileType p) ".page.server" && isDefaultPageFile p)
          pageFilesAll)).

Definition callOnBeforePrerenderHook (pageFilesAll : list PageFile) : M unit :=
  let hooks := onBeforePrerenderHooks pageFilesAll in
  match hooks with
  | [] => ret tt
  | hook :: _ =>
      lift (assertUsage (Nat.eqb (length hooks) 1) msgOnlyOneHook) ;;
      let (file, onBeforePrerender) := hook in
      lift (assertUsage (isCallable onBeforePrerender) (msgHookNotFunction file)) ;;
      match onBeforePrerender with
      | VFun f =>
          s <- get ;;
          r <- invoke f [VObj (globalContext s)] ;;
          match r with
          | Throws err => throw (HookFailure err)
          | Returns result =>
              if isNull result || isUndefined result then ret tt
              else
                lift (assertUsage
                        (isObjectWithKeys result ["globalContext"%string]
                         && hasProp result "globalContext")
                        (msgHookReturn file)) ;;
                let globalContextAddedum := getProp result "globalContext" in
                lift (assertUsage (isPlainObject globalContextAddedum)
                        (msgHookGlobalContext file)) ;;
                match globalContextAddedum with
                | VObj addendum =>
                    modify (fun s =>
                      set_globalContext (objectAssign (globalContext s) addendum) s)
                | _ => ret tt
                end
          end
      | _ => ret tt
      end
  end.

(** *** Phase 4: routing and rendering *)

Definition msgNoRoute (sourceFile u : string) : string :=
  "Your `prerender()` hook defined in `" ^^ sourceFile ^^ " returns an URL `" ^^ u
    ^^ "` that doesn't match any page route. Make sure the URLs your return in your `prerender()` hooks always match the URL of a page.".

(** [record[k] = v] *)
Fixpoint assoc_set {V} (k : string) (v : V) (l : list (string * V)) : list (string * V) :=
  match l with
  | [] => [(k, v)]
  | (k', v') :: rest =>
      if String.eqb k' k then (k, v) :: rest else (k', v') :: assoc_set k v rest
  end.

Fixpoint set_nth {A} (i : nat) (x : A) (l : list A) : list A :=
  match l, i with
  | [], _ => []
  | _ :: rest, O => x :: rest
  | y :: rest, S j => y :: set_nth j x rest
  end.

(** The unit of work of [routeAndPrerender] for the page context at index
    [i]; [htmlFiles] and [prerenderPageIds] are the two accumulators that
    [prerender] passes by reference. *)
Definition routeTask (acc : list HtmlFile * PrerenderedPageIds) (i : nat)
  : M (list HtmlFile * PrerenderedPageIds) :=
  s <- get ;;
  match nth_error (prerenderPageContexts s) i with
  | None => ret acc
  | Some pageContext =>
      let u := getProp (VObj pageContext) "url" in
      let prerenderSourceFile := getProp (VObj pageContext) "_prerenderSourceFile" in
      match route pageContext with
      | RouteHookError hookError => throwPrerenderError hookError
      | RouteAddendum pageContextAddendum =>
          lift (assert (hasPropOfType (VObj pageContextAddendum) "_pageId" "null"
                        || hasPropOfType (VObj pageContextAddendum) "_pageId" "string")) ;;
          (if isNull (getProp (VObj pageContextAddendum) "_pageId") then
             lift (assert (truthy prerenderSourceFile)) ;;
             lift (assertUsage false
                     (msgNoRoute (Normalizer.asString prerenderSourceFile)
                        (Normalizer.asString u)))
           else ret tt) ;;
          lift (assert (truthy (getProp (VObj pageContextAddendum) "_pageId"))) ;;
          let pageContext1 := objectAssign pageContext pageContextAddendum in
          let pageId := Normalizer.asString (getProp (VObj pageContext1) "_pageId") in
          let pageFilesData :=
            loadPageFilesServer (obj_set "_pageId" (VStr pageId) (globalContext s)) in
          let pageContext2 := objectAssign pageContext1 pageFilesData in
          modify (fun s =>
            set_prerenderPageContexts (set_nth i pageContext2 (prerenderPageContexts s)) s) ;;
          rendered <- lift (prerenderPage pageContext2) ;;
          emit (EvDocument (Normalizer.asString u)) ;;
          ret (fst acc ++ [mkHtmlFile (Normalizer.asString u) pageContext2 (fst rendered)
                             (snd rendered)
                             (truthy (getProp (VObj (globalContext s)) "_noExtraDir"))
                             (Some pageId)],
               assoc_set pageId
                 (mkPrerenderedPage (Normalizer.asString u) (asOptString prerenderSourceFile))
                 (snd acc))
      end
  end.

Fixpoint foldM {A B} (f : B -> A -> M B) (l : list A) (b : B) : M B :=
  match l with
  | [] => ret b
  | x :: rest => b' <- f b x ;; foldM f rest b'
  end.

Definition routeAndPrerender (htmlFiles : list HtmlFile) (prerenderPageIds : PrerenderedPageIds)
  : M (list HtmlFile * PrerenderedPageIds) :=
  s <- get ;;
  foldM routeTask (seq 0 (length (prerenderPageContexts s))) (htmlFiles, prerenderPageIds).

(** *** The coverage validator *)

Definition msgContradictory (sourceFile u excludingFile : string) : string :=
  "Your `prerender()` hook defined in " ^^ sourceFile ^^ " returns the URL `" ^^ u
    ^^ "` which matches the page with `" ^^ excludingFile
    ^^ "#doNotPrerender === true`. This is contradictory: either do not set `doNotPrerender` or remove the URL from the list of URLs to be pre-rendered.".

Definition warnContradictoryNoPrerenderList
  (prerenderPageIds : PrerenderedPageIds) (doNotPrerenderList : DoNotPrerenderList)
  : result unit :=
  forEach
    (fun entry : string * PrerenderedPage =>
       let (pageId, page) := entry in
       match inDoNotPrerenderList doNotPrerenderList pageId with
       | Some doNotPrerenderListHit =>
           bindR (assert (truthyOpt (_prerenderSourceFile page))) (fun _ =>
           assertUsage false
             (msgContradictory
                (match _prerenderSourceFile page with Some f => f | None => "" end)
                (pp_url page) (pageServerFilePath doNotPrerenderListHit)))
       | None => Ok tt
       end)
    prerenderPageIds.

Definition msgMissingPage (pageId : string) : string :=
  "Could not pre-render page `" ^^ pageId
    ^^ ".page.*` because it has a non-static route, and no `prerender()` hook returned (an) URL(s) matching the page's route. Either use a `prerender()` hook to pre-render the page, or use the `--partial` option to suppress this warning.".

(** The page ids [warnMissingPages] goes over: the three filters. *)
Definition missingPages (prerenderPageIds : PrerenderedPageIds)
  (doNotPrerenderList : DoNotPrerenderList) (allPageIds : list string) : list string :=
  filter (fun pageId => negb (isErrorPage pageId))
    (filter (fun pageId => negb (isSome (inDoNotPrerenderList doNotPrerenderList pageId)))
       (filter (fun pageId => negb (existsb (String.eqb pageId) (map fst prerenderPageIds)))
          allPageIds)).

Definition warnMissingPages (prerenderPageIds : PrerenderedPageIds)
  (doNotPrerenderList : DoNotPrerenderList) (allPageIds : list string) (partial : bool)
  : M unit :=
  forEachM (fun pageId => assertWarning partial (msgMissingPage pageId))
    (missingPages prerenderPageIds doNotPrerenderList allPageIds).

(** *** Phase 5: the 404 page *)

Definition prerender404Page (htmlFiles : list HtmlFile) : M (list HtmlFile) :=
  if isSome (find (fun h => String.eqb (hf_url h) "/404") htmlFiles) then ret htmlFiles
  else
    s <- get ;;
    match renderStatic404Page (globalContext s) with
    | Some (documentHtml, pageContext) =>
        emit (EvDocument "/404") ;;
        ret (htmlFiles ++ [mkHtmlFile "/404" pageContext documentHtml None true None])
    | None => ret htmlFiles
    end.

(** *** The output writer *)

Variable join : list string -> string.

Definition outDir : string := "dist/".

(** One write.  The path separator is the one of a POSIX host, so that
    [fileUrl.slice(1).split('/').join(sep)] is [fileUrl.slice(1)]; the two
    assertions on [outDir] hold of the constant it is. *)
Definition write (u : string) (pageContext : object) (fileExtension fileContent : string)
  (root : string) (doNotCreateExtraDirectory : bool) (onPagePrerender : option nat)
  : M unit :=
  let fileUrl :=
    getFileUrl u fileExtension
      (String.eqb fileExtension ".pageContext.json" || doNotCreateExtraDirectory) in
  lift (assert (startsWith fileUrl "/")) ;;
  let filePathRelative := substring 1 (String.length fileUrl - 1) fileUrl in
  lift (assert (negb (startsWith filePathRelative "/"))) ;;
  let filePath := join [root; outDir; "client"%string; filePathRelative] in
  match onPagePrerender with
  | Some f =>
      r <- invoke f
             [VObj (objectAssign pageContext
                      [("_prerenderResult"%string,
                        VObj [("filePath"%string, VStr filePath);
                              ("fileContent"%string, VStr fileContent)])])] ;;
      match r with
      | Throws err => throw (HookFailure err)
      | Returns _ => emit (EvSink filePathRelative fileContent)
      end
  | None => emit (EvWrite filePathRelative fileContent)
  end.

Definition writeHtmlFile (root : string) (doNotPrerenderList : DoNotPrerenderList)
  (onPagePrerender : option nat) (h : HtmlFile) : M unit :=
  lift (assert (startsWith (hf_url h) "/")) ;;
  lift (assert (negb (match hf_pageId h with
                      | Some id => isSome (inDoNotPrerenderList doNotPrerenderList id)
                      | None => false
                      end))) ;;
  write (hf_url h) (hf_pageContext h) ".html" (htmlString h) root
    (doNotCreateExtraDirectory h) onPagePrerender ;;
  match pageContextSerialized h with
  | Some serialized =>
      write (hf_url h) (hf_pageContext h) ".pageContext.json" serialized root
        (doNotCreateExtraDirectory h) onPagePrerender
  | None => ret tt
  end.

(** *** The entry point *)

(** The deprecated options of [prerender], [undefined] when not given. *)
Record Options : Type := mkOptions {
  opt_partial : value;
  opt_noExtraDir : value;
  opt_base : value;
  opt_root : value;
  opt_outDir : value;
  opt_parallel : value
}.

(** [options[prop]] *)
Definition option_of (options : Options) (prop : string) : value :=
  if String.eqb prop "partial" then opt_partial options
  else if String.eqb prop "noExtraDir" then opt_noExtraDir options
  else if String.eqb prop "base" then opt_base options
  else if String.eqb prop "root" then opt_root options
  else if String.eqb prop "outDir" then opt_outDir options
  else if String.eqb prop "parallel" then opt_parallel options
  else VUndefined.

Definition msgDeprecated (prop : string) : string :=
  "[prerender()] Option `" ^^ prop ^^ "` is deprecated. Define `" ^^ prop
    ^^ "` in `vite.config.js` instead. See https://vite-plugin-ssr.com/config".

Definition msgNoEffect (prop : string) : string :=
  "[prerender()] Option `" ^^ prop
    ^^ "` is deprecated and has no effect (vite-plugin-ssr now automatically determines `"
    ^^ prop ^^ "`)".

(** [path.isAbsolute] of Node, on a POSIX host. *)
Definition isAbsolute (p : value) : bool :=
  match p with VStr s => startsWith s "/" | _ => false end.

Definition isBoolean (v : value) : bool :=
  match v with VBool _ => true | _ => false end.

Definition isString (v : value) : bool :=
  match v with VStr _ => true | _ => false end.

(** The text of a value inside a template literal.  A function prints its
    source text, which is not modelled: a fixed text stands for it. *)
Fixpoint toTemplateString (v : value) : string :=
  match v with
  | VUndefined => "undefined"
  | VNull => "null"
  | VBool true => "true"
  | VBool false => "false"
  | VNum n => DecimalString.NilZero.string_of_int (Z.to_int n)
  | VStr s => s
  | VFun _ => "function"
  | VArr items =>
      String.concat ","
        (map (fun x => match x with
                       | VUndefined | VNull => EmptyString
                       | _ => toTemplateString x
                       end) items)
  | VObj _ => "[object Object]"
  end.

Definition msgParallel (parallel : value) : string :=
  "[prerender()] Option `parallel` should be a number `>=1` but we got `"
    ^^ toTemplateString parallel ^^ "`.".

Definition checkOutdatedOptions (options : Options) : M unit :=
  forEachM
    (fun prop => lift (assertUsage (isUndefined (option_of options prop)) (msgDeprecated prop)))
    ["noExtraDir"; "partial"; "parallel"]%string ;;
  forEachM
    (fun prop => assertWarning (isUndefined (option_of options prop)) (msgNoEffect prop))
    ["base"; "root"; "outDir"]%string ;;
  let partial := opt_partial options in
  let noExtraDir := opt_noExtraDir options in
  let root := opt_root options in
  let outDir := opt_outDir options in
  let parallel := opt_parallel options in
  lift (assertUsage (isUndefined partial || isBoolean partial)
          "[prerender()] Option `partial` should be a boolean.") ;;
  lift (assertUsage (isUndefined noExtraDir || isBoolean noExtraDir)
          "[prerender()] Option `noExtraDir` should be a boolean.") ;;
  lift (assertUsage (isUndefined root || isString root)
          "[prerender()] Option `root` should be a string.") ;;
  lift (assertUsage (isUndefined root || isAbsolute root)
          "[prerender()] The path `root` is not absolute. Make sure to provide an absolute path.") ;;
  lift (assertUsage (isUndefined outDir || isString outDir)
          "[prerender()] Option `outDir` should be a string.") ;;
  lift (assertUsage (isUndefined parallel || truthy parallel) (msgParallel parallel)).

(** What the collaborators that run before the phases answer: the resolved
    Vite configuration with its prerender settings, the host, the global
    context, the page inventory and the page routes. *)
Record Setup : Type := mkSetup {
  configFile : option string;
  viteRoot : string;
  hasVitePluginSsr : bool;
  vitePluginSsrConfig : result unit;
  cfg_partial : option bool;
  cfg_noExtraDir : option bool;
  cfg_parallel : option nat;
  cpus : nat;
  initialGlobalContext : object;
  pageFilesAll : list PageFile;
  allPageIds : list string;
  pageRoutes : list PageRoute
}.

Definition msgNoConfig (root : string) : string :=
  "Could not find `vite.config.js` at " ^^ root
    ^^ ". Use the option `prerender({ configFile: 'path/to/vite.config.js' })`.".

Definition msgNoPlugin (file : string) : string :=
  "The `vite.config.js` (" ^^ file
    ^^ ") does not contain vite-plugin-ssr. Make sure to add vite-plugin-ssr to `vite.config.js`, or, if you have more than one `vite.config.js`, use the option `prerender({ configFile: 'path/to/vite.config.js' })` to select the right `vite.config.js`.".

Definition orDefault {A} (o : option A) (d : A) : A :=
  match o with Some a => a | None => d end.

(** [parallel = cpus().length || 1], the ceiling [pLimit] is built with. *)
Definition parallel (setup : Setup) : nat :=
  orDefault (cfg_parallel setup) (if Nat.eqb (cpus setup) 0 then 1 else cpus setup).

(** [prerender].  The page files, the page ids and the page contexts, which
    the program keeps under keys of the global context, are kept beside it
    here; [pageContextInit] is taken not to overwrite those keys.  Console
    logging is left out. *)
Definition prerender (setup : Setup) (onPagePrerender : option nat)
  (pageContextInit : option object) (deprecatedOptions : Options) : M unit :=
  checkOutdatedOptions deprecatedOptions ;;
  let root := viteRoot setup in
  lift (assertUsage (isSome (configFile setup)) (msgNoConfig root)) ;;
  lift (assertUsage (hasVitePluginSsr setup) (msgNoPlugin (orDefault (configFile setup) EmptyString))) ;;
  lift (vitePluginSsrConfig setup) ;;
  let partial := orDefault (cfg_partial setup) false in
  let noExtraDir := orDefault (cfg_noExtraDir setup) false in
  modify (set_globalContext
            (objectAssign (initialGlobalContext setup)
               [("_isPreRendering", VBool true); ("_urlProcessor", VNull);
                ("_noExtraDir", VBool noExtraDir); ("_root", VStr root)]%string)) ;;
  modify (set_prerenderPageContexts []) ;;
  s <- get ;;
  lift (assert (truthy (getProp (VObj (globalContext s)) "_isProduction"))) ;;
  modify (fun s =>
    set_globalContext
      (objectAssign (globalContext s)
         [("_usesClientRouter"%string,
           getProp (getProp (VObj (globalContext s)) "_manifestPlugin") "usesClientRouter")])
      s) ;;
  modify (fun s =>
    set_globalContext (objectAssign (globalContext s) (orDefault pageContextInit [])) s) ;;
  modify (set_doNotPrerenderList []) ;;
  callPrerenderHooks (pageFilesAll setup) ;;
  handlePagesWithStaticRoutes (pageRoutes setup) ;;
  callOnBeforePrerenderHook (pageFilesAll setup) ;;
  rendered <- routeAndPrerender [] [] ;;
  let prerenderPageIds := snd rendered in
  s <- get ;;
  emit EvContradictionCheck ;;
  lift (warnContradictoryNoPrerenderList prerenderPageIds (doNotPrerenderList s)) ;;
  htmlFiles <- prerender404Page (fst rendered) ;;
  forEachM (writeHtmlFile root (doNotPrerenderList s) onPagePrerender) htmlFiles ;;
  emit EvMissingCheck ;;
  warnMissingPages prerenderPageIds (doNotPrerenderList s) (allPageIds setup) partial.

End WithCollaborators.

End Pipeline.

(** ** The deprecated entry point (node/cli/index.ts) *)

Module Cli.

Definition msgDeprecatedImport : string :=
  "`import { prerender } from 'vite-plugin-ssr/cli'` is deprecated in favor of `import { prerender } from 'vite-plugin-ssr/prerender'``".

(** [prerender] of the cli module: the warning, then the original. *)
Definition prerender
  (call : nat -> list value -> outcome)
  (route : object -> RouteResult)
  (loadPageFilesServer : object -> object)
  (prerenderPage : object -> result (string * option string))
  (renderStatic404Page : object -> option (string * object))
  (getFileUrl : string -> string -> bool -> string)
  (isErrorPage isStaticRoute : string -> bool)
  (join : list string -> string)
  (setup : Pipeline.Setup) (onPagePrerender : option nat)
  (pageContextInit : option object) (deprecatedOptions : Pipeline.Options) : M unit :=
  assertWarning false msgDeprecatedImport ;;
  Pipeline.prerender call route loadPageFilesServer prerenderPage renderStatic404Page
    getFileUrl isErrorPage isStaticRoute join
    setup onPagePrerender pageContextInit deprecatedOptions.

End Cli.

(** ** The page files of the dev server (node/page-files/setup.ts) *)

Module PageFilesSetup.

(** The dev server, as far as this file uses it: loading a module gives its
    namespace object, or throws. *)
Record ViteDevServer : Type := mkViteDevServer {
  ssrLoadModule : string -> result object
}.

Definition virtualModuleId : string := "virtual:vite-plugin-ssr:pageFiles:server".

(** [dev].  A server is an object, so [assert(viteDevServer)] holds. *)
Definition dev (viteDevServer : ViteDevServer) : result value :=
  bindR (ssrLoadModule viteDevServer virtualModuleId) (fun moduleExports =>
  let default := getProp (VObj moduleExports) "default" in
  let pageFilesExports := if truthy default then default else VObj moduleExports in
  bindR (assert (truthy pageFilesExports)) (fun _ =>
  Ok pageFilesExports)).

(** [getPageFilesExports]; [getViteDevServer()] is its argument, the debug
    log is left out. *)
Definition getPageFilesExports (viteDevServer : option ViteDevServer) : result value :=
  match viteDevServer with
  | Some server => dev server
  | None => bindR (assert false) (fun _ => Ok VUndefined)
  end.

End PageFilesSetup.

(** * The vocabulary of the properties *)

(** [prerender] with its collaborators. *)
Definition run := Pipeline.prerender.

Definition emptyState : State := mkState [] [] [] [] [] [].

(** What [normalize] may do to an element: leave it as it is, or give a
    record that has no pageContext key that key, with the value null. *)
Definition gainsNullPageContext (el el' : value) : Prop :=
  exists o, el = VObj o
            /\ obj_has "pageContext" o = false
            /\ el' = VObj (o ++ [("pageContext"%string, VNull)]).

Definition normalizeFrame (el el' : value) : Prop :=
  el' = el \/ gainsNullPageContext el el'.


(** The page context that [addPrerenderEntry] creates for a new URL. *)
Definition newPageContext (file u : string) (g : object) : object :=
  obj_set "url" (VStr u) (obj_set "_prerenderSourceFile" (VStr file) g).

(** The merge of a hook's pageContext into the page context found. *)
Definition mergeHookContext (pc found : object) : object :=
  objectAssign found (objectAssign [(markerKey, VBool true)] pc).

(** The store once the page context of [u] has been found or created. *)
Definition storeWith (file u : string) (s : State) : list object :=
  match find (hasUrl u) (prerenderPageContexts s) with
  | Some _ => prerenderPageContexts s
  | None => prerenderPageContexts s ++ [newPageContext file u (globalContext s)]
  end.

(** Two page-server files whose prerender() hooks both return the URL /a
    with a pageContext record. *)
Definition twoHooksCall (f : nat) (args : list value) : outcome :=
  match f with
  | O => Returns (VObj [("url", VStr "/a");
                        ("pageContext", VObj [("title", VStr "A")])]%string)
  | _ => Returns (VObj [("url", VStr "/a");
                        ("pageContext", VObj [("lang", VStr "en")])]%string)
  end.

Definition twoHookFiles : list PageFile :=
  [mkPageFile ".page.server" false "pages/a.page.server.js" "/pages/a"
     (Some [("prerender"%string, VFun 0)]);
   mkPageFile ".page.server" false "pages/b.page.server.js" "/pages/b"
     (Some [("prerender"%string, VFun 1)])].

(** A small run: one page with a static route, no hook, no sink. *)
Module Demo.

Definition call (f : nat) (args : list value) : outcome := Returns VUndefined.

Definition route (pageContext : object) : RouteResult :=
  RouteAddendum [("_pageId"%string, VStr "/pages/about")].

Definition loadPageFilesServer (pageContext : object) : object := [].

Definition prerenderPage (pageContext : object) : result (string * option string) :=
  Ok ("<html>about</html>"%string, Some "{}"%string).

Definition renderStatic404Page (g : object) : option (string * object) :=
  Some ("<html>404</html>"%string, []).

Definition getFileUrl (u fileExtension : string) (doNotCreateExtraDirectory : bool) : string :=
  if doNotCreateExtraDirectory then u ^^ fileExtension else u ^^ "/index" ^^ fileExtension.

Definition isErrorPage (id : string) : bool := false.

Definition isStaticRoute (r : string) : bool := true.

Definition join (parts : list string) : string := String.concat "/" parts.

Definition setup : Pipeline.Setup :=
  Pipeline.mkSetup (Some "vite.config.js"%string) "/app" true (Ok tt) None None None 4
    [("_isProduction"%string, VBool true)]
    [] ["/pages/about"%string] [mkPageRoute "/pages/about" None "/about"].

Definition prerender := run call route loadPageFilesServer prerenderPage renderStatic404Page
    getFileUrl isErrorPage isStaticRoute join.

End Demo.


(** What a failed [assertWarning] does to the state. *)
Definition warnOnce (msg : string) (s : State) : State :=
  if existsb (String.eqb msg) (warned s) then s
  else set_warned (warned s ++ [msg]) s.

(** The same state but for the warnings printed. *)
Definition sameButWarned (s s' : State) : Prop :=
  s' = set_warned (warned s') s.

Definition supplied (v : value) : bool := negb (isUndefined v).

Definition noDeprecatedOptions : Pipeline.Options :=
  Pipeline.mkOptions VUndefined VUndefined VUndefined VUndefined VUndefined VUndefined.

Definition warnIfSupplied (prop : string) (v : value) (s : State) : State :=
  if isUndefined v then s else warnOnce (Pipeline.msgNoEffect prop) s.

(** The state once base, root and outDir have been looked at. *)
Definition afterDeprecationWarnings (o : Pipeline.Options) (s : State) : State :=
  warnIfSupplied "outDir" (Pipeline.opt_outDir o)
    (warnIfSupplied "root" (Pipeline.opt_root o)
       (warnIfSupplied "base" (Pipeline.opt_base o) s)).

(** The values of root and outDir that the later checks let through. *)
Definition rootAccepted (o : Pipeline.Options) : bool :=
  isUndefined (Pipeline.opt_root o)
  || Pipeline.isString (Pipeline.opt_root o) && Pipeline.isAbsolute (Pipeline.opt_root o).

Definition outDirAccepted (o : Pipeline.Options) : bool :=
  isUndefined (Pipeline.opt_outDir o) || Pipeline.isString (Pipeline.opt_outDir o).

Definition rejectedOptionSupplied (o : Pipeline.Options) : bool :=
  supplied (Pipeline.opt_noExtraDir o) || supplied (Pipeline.opt_partial o)
  || supplied (Pipeline.opt_parallel o).

(** Distinct keys at the top of a value. *)
Definition wf_value (v : value) : bool :=
  match v with VObj o => wf_obj o | _ => true end.

(** A computation that adds to the events only events of the kind [P]. *)
Definition appendsOnly {A} (P : event -> Prop) (m : M A) : Prop :=
  forall s s' r, m s = (s', r) ->
                 exists l, events s' = events s ++ l /\ Forall P l.







(** ** More vocabulary: the page context store *)

(** The URL a page context is found by. *)
Definition urlOf (ctx : object) : option string :=
  match obj_get "url" ctx with
  | Some (VStr s) => Some s
  | _ => None
  end.

(** The URLs of the store, in its order. *)
Definition urlList (store : list object) : list string :=
  flat_map (fun ctx => match urlOf ctx with Some u => [u] | None => [] end) store.

(** No two page contexts of the store are found by the same URL. *)
Definition oneContextPerUrl (store : list object) : Prop := NoDup (urlList store).

(** A hook's pageContext that does not write the url key of its page
    context: null, or a record without that key. *)
Definition carriesNoUrl (v : value) : bool :=
  match v with
  | VObj pc => negb (obj_has "url" pc)
  | _ => true
  end.

(** ** More vocabulary: the page files of phase 1 *)


Definition isExcludedFile (p : PageFile) : bool := truthy (fileExport p "doNotPrerender").








(** ** More vocabulary: static routes *)

(** The URL of a page that is known without routing: its route string when
    that is static, its filesystem route when it has no route file. *)
Definition staticUrl (isStaticRoute : string -> bool) (pageRoute : PageRoute) : option string :=
  match pageRouteFile pageRoute with
  | Some (VStr r) => if isStaticRoute r then Some r else None
  | Some _ => None
  | None => Some (filesystemRoute pageRoute)
  end.

(** The page context that static-route discovery creates. *)
Definition staticPageContext (loadPageFilesServer : object -> object) (g : object)
  (id u : string) : object :=
  let pageContext0 :=
    obj_set "_pageId" (VStr id)
      (obj_set "routeParams" (VObj [])
         (obj_set "url" (VStr u) (obj_set "_prerenderSourceFile" VNull g))) in
  objectAssign pageContext0 (loadPageFilesServer pageContext0).

(** A page context that discovery may add for one of the page routes, in a
    run with the given exclusion list and global context. *)
Definition discoveredFrom (loadPageFilesServer : object -> object)
  (isStaticRoute : string -> bool) (pageRoutes : list PageRoute)
  (exclusions : DoNotPrerenderList) (g : object) (ctx : object) : Prop :=
  exists pageRoute u,
    In pageRoute pageRoutes
    /\ inDoNotPrerenderList exclusions (pr_pageId pageRoute) = None
    /\ staticUrl isStaticRoute pageRoute = Some u
    /\ startsWith u "/" = true
    /\ ctx = staticPageContext loadPageFilesServer g (pr_pageId pageRoute) u.

(** ** More vocabulary: documents and outputs *)



Definition isWrite (e : event) : Prop :=
  match e with EvWrite _ _ => True | _ => False end.

Definition isSink (e : event) : Prop :=
  match e with EvSink _ _ => True | _ => False end.

Definition outputContent (e : event) : string :=
  match e with
  | EvWrite _ content | EvSink _ content => content
  | _ => EmptyString
  end.

(** The contents of the files of a document: the body, then the serialized
    page context when there is one. *)
Definition contentsOf (h : HtmlFile) : list string :=
  htmlString h :: match pageContextSerialized h with Some c => [c] | None => [] end.

(** A setup in which Vite found no configuration file. *)
Definition setupWithoutConfig : Pipeline.Setup :=
  Pipeline.mkSetup None "/app" false (Ok tt) None None None 4 [] [] [] [].

(** * Properties *)

(** ** Strings and messages *)

Lemma append_assoc (a b c : string) : (a ^^ b) ^^ c = a ^^ b ^^ c.
Proof.
  induction a as [|ch a IH]; simpl.
  - reflexivity.
  - now rewrite IH.
Qed.

Lemma append_empty_r (a : string) : a ^^ EmptyString = a.
Proof.
  induction a as [|ch a IH]; simpl; [reflexivity | now rewrite IH].
Qed.

Lemma mentions_mid (pre part post : string) : mentions (pre ^^ part ^^ post) part.
Proof. now exists pre, post. Qed.

Lemma mentions_prepend (x msg part : string) :
  mentions msg part -> mentions (x ^^ msg) part.
Proof.
  intros (pre & post & ->). exists (x ^^ pre), post.
  now rewrite append_assoc.
Qed.

Lemma mentions_append (x msg part : string) :
  mentions msg part -> mentions (msg ^^ x) part.
Proof.
  intros (pre & post & ->). exists pre, (post ^^ x).
  now rewrite !append_assoc.
Qed.

Create HintDb msgs.
#[export] Hint Resolve mentions_mid mentions_prepend mentions_append : msgs.

(** ** Objects *)

Lemma obj_get_set (k k' : string) (v : value) (o : object) :
  obj_get k (obj_set k' v o) = if String.eqb k' k then Some v else obj_get k o.
Proof.
  induction o as [|[k0 v0] o IH]; simpl.
  - destruct (String.eqb k' k); reflexivity.
  - destruct (String.eqb k0 k') eqn:E0; simpl.
    + apply String.eqb_eq in E0. subst k0.
      destruct (String.eqb k' k); reflexivity.
    + destruct (String.eqb k0 k) eqn:E1.
      * apply String.eqb_eq in E1. subst k0.
        rewrite String.eqb_sym in E0. now rewrite E0.
      * exact IH.
Qed.

Lemma obj_set_absent (k : string) (v : value) (o : object) :
  obj_has k o = false -> obj_set k v o = o ++ [(k, v)].
Proof.
  unfold obj_has. induction o as [|[k0 v0] o IH]; simpl; intros H.
  - reflexivity.
  - destruct (String.eqb k0 k); [discriminate | now rewrite IH].
Qed.

Lemma existsb_eqb_In (k : string) (ks : list string) :
  existsb (String.eqb k) ks = true <-> In k ks.
Proof.
  rewrite existsb_exists. split.
  - intros (x & Hx & E). apply String.eqb_eq in E. now subst.
  - intros H. exists k. split; [assumption | apply String.eqb_refl].
Qed.

Lemma obj_get_not_key (k : string) (o : object) :
  ~ In k (obj_keys o) -> obj_get k o = None.
Proof.
  induction o as [|[k0 v0] o IH]; simpl; intros H.
  - reflexivity.
  - destruct (String.eqb k0 k) eqn:E.
    + apply String.eqb_eq in E. tauto.
    + apply IH. tauto.
Qed.

Lemma obj_get_key (k : string) (o : object) :
  In k (obj_keys o) -> exists v, obj_get k o = Some v.
Proof.
  induction o as [|[k0 v0] o IH]; simpl; intros H.
  - contradiction.
  - destruct (String.eqb k0 k) eqn:E.
    + now exists v0.
    + apply IH. destruct H as [H | H]; [|assumption].
      apply String.eqb_neq in E. contradiction.
Qed.

(** A key that the source does not have keeps its value in the target. *)
Lemma obj_get_objectAssign_other (k : string) (source target : object) :
  obj_get k source = None ->
  obj_get k (objectAssign target source) = obj_get k target.
Proof.
  unfold objectAssign. revert target.
  induction source as [|[k0 v0] source IH]; simpl; intros target H.
  - reflexivity.
  - destruct (String.eqb k0 k) eqn:E; [discriminate|].
    rewrite IH by assumption. rewrite obj_get_set. now rewrite E.
Qed.

(** Shallow merge: the source's keys win, the target keeps the others. *)
Lemma obj_get_objectAssign (k : string) (source target : object) :
  wf_obj source = true ->
  obj_get k (objectAssign target source) =
  match obj_get k source with
  | Some v => Some v
  | None => obj_get k target
  end.
Proof.
  unfold objectAssign, wf_obj. revert target.
  induction source as [|[k0 v0] source IH]; simpl; intros target Hwf.
  - reflexivity.
  - apply andb_prop in Hwf. destruct Hwf as [Hnew Hwf].
    destruct (String.eqb k0 k) eqn:E.
    + apply String.eqb_eq in E. subst k0.
      assert (Hk : obj_get k source = None).
      { apply obj_get_not_key. intros Hin.
        apply existsb_eqb_In in Hin.
        rewrite Hin in Hnew. discriminate. }
      fold (objectAssign (obj_set k v0 target) source).
      rewrite obj_get_objectAssign_other by assumption.
      rewrite obj_get_set. now rewrite String.eqb_refl.
    + rewrite IH by assumption.
      destruct (obj_get k source); [reflexivity|].
      rewrite obj_get_set. now rewrite E.
Qed.

(** ** The hook normalizer *)

Module NormalizerFacts.
Import Normalizer.

(** Every throw of [normalize] is a usage error that names the hook file. *)
Lemma normalize_throws_usage (file : string) (el : value) (e : error) :
  snd (normalize file el) = Err e ->
  exists msg, e = UsageError msg /\ mentions msg file.
Proof.
  unfold normalize.
  destruct el; simpl;
    try (intros H; injection H as <-; eexists; split; [reflexivity|];
         unfold msgInvalid, errMsg1; auto 6 with msgs; fail).
  - discriminate.
  - destruct (negb (obj_has "url" props)).
    { intros H; injection H as <-. eexists; split; [reflexivity|].
      unfold msgUrlMissing, errMsg1. auto 6 with msgs. }
    destruct (negb (hasPropOfType (VObj props) "url" "string")).
    { intros H; injection H as <-. eexists; split; [reflexivity|].
      unfold msgUrlNotString, errMsg1. auto 6 with msgs. }
    destruct (negb (startsWith _ "/")).
    { intros H; injection H as <-. eexists; split; [reflexivity|].
      unfold msgUrlNoSlash, errMsg1. auto 6 with msgs. }
    destruct (find _ _).
    { intros H; injection H as <-. eexists; split; [reflexivity|].
      unfold msgUnexpectedKey, errMsg1. auto 6 with msgs. }
    destruct (negb (hasPropOfType _ "pageContext" "object")); simpl.
    { intros H; injection H as <-. eexists; split; [reflexivity|].
      unfold msgPageContext. auto with msgs. }
    discriminate.
Qed.

Lemma mapNormalize_throws_usage (file : string) (items : list value) (e : error) :
  snd (mapNormalize file items) = Err e ->
  exists msg, e = UsageError msg /\ mentions msg file.
Proof.
  induction items as [|x rest IH]; simpl.
  - discriminate.
  - destruct (normalize file x) as [x' [entry|e']] eqn:Ex.
    + destruct (mapNormalize file rest) as [rest' [entries|e'']]; simpl in *.
      * discriminate.
      * exact IH.
    + simpl. intros H. injection H as <-.
      apply (normalize_throws_usage file x). now rewrite Ex.
Qed.

(** X1.  Whatever [normalizePrerenderResult] throws is a usage error whose
    message names the hook file. *)
Theorem normalizePrerenderResult_throws_usage (file : string) (r : value) (e : error) :
  snd (normalizePrerenderResult file r) = Err e ->
  exists msg, e = UsageError msg /\ mentions msg file.
Proof.
  unfold normalizePrerenderResult.
  destruct r;
    try (destruct (normalize file _) as [el' [entry|e']] eqn:En; simpl;
         [discriminate | intros H; injection H as <-;
          eapply normalize_throws_usage; rewrite En; reflexivity]).
  destruct (mapNormalize file items) as [items' res] eqn:Em. simpl.
  intros H. apply (mapNormalize_throws_usage file items). now rewrite Em.
Qed.

(** X2.  A record element that [normalize] accepts has a string url that
    starts with a slash, no key but url and pageContext, and a pageContext
    whose typeof is object. *)
Theorem normalize_record_accepted (file : string) (o : object) (entry : PrerenderEntry) :
  snd (normalize file (VObj o)) = Ok entry ->
  obj_get "url" o = Some (VStr (url entry))
  /\ startsWith (url entry) "/" = true
  /\ (forall key, In key (obj_keys o) -> key = "url"%string \/ key = "pageContext"%string)
  /\ typeof (pageContext entry) = "object"%string.
Proof.
  unfold normalize. simpl.
  destruct (obj_has "url" o) eqn:Hurl; simpl; [|discriminate].
  unfold hasPropOfType. simpl. rewrite Hurl. simpl.
  unfold obj_has in Hurl.
  destruct (obj_get "url" o) as [u|] eqn:Eu; [|discriminate].
  destruct u; simpl; try discriminate.
  destruct (startsWith s "/") eqn:Hs; simpl; [|discriminate].
  destruct (find _ (obj_keys o)) eqn:Hf; [discriminate|].
  assert (Hkeys : forall key, In key (obj_keys o) ->
                              key = "url"%string \/ key = "pageContext"%string).
  { intros key Hin. pose proof (find_none _ _ Hf key Hin) as Hk.
    unfold allowedKey in Hk. apply negb_false_iff in Hk.
    apply orb_true_iff in Hk. destruct Hk as [Hk|Hk]; apply String.eqb_eq in Hk; auto. }
  destruct (obj_has "pageContext" o) eqn:Hpc; simpl.
  - rewrite Hpc. simpl.
    destruct (String.eqb (typeof _) "object") eqn:Ht; simpl; [|discriminate].
    intros H. injection H as <-. simpl.
    apply String.eqb_eq in Ht. auto.
  - unfold obj_has. rewrite obj_get_set. simpl.
    intros H. injection H as <-. simpl. auto.
Qed.

Lemma normalizePrerenderResult_throws_usage_witness :
  exists msg, UsageError (msgInvalid "pages/a.page.server.js") = UsageError msg
              /\ mentions msg "pages/a.page.server.js".
Proof.
  apply (normalizePrerenderResult_throws_usage "pages/a.page.server.js" (VNum 3)).
  reflexivity.
Defined.

Lemma normalize_record_accepted_witness :
  obj_get "url" [("url"%string, VStr "/a")] = Some (VStr (url (mkEntry "/a" VNull)))
  /\ startsWith (url (mkEntry "/a" VNull)) "/" = true
  /\ (forall key, In key (obj_keys [("url"%string, VStr "/a")]) ->
                  key = "url"%string \/ key = "pageContext"%string)
  /\ typeof (pageContext (mkEntry "/a" VNull)) = "object"%string.
Proof.
  apply (normalize_record_accepted "pages/a.page.server.js" [("url"%string, VStr "/a")]).
  reflexivity.
Defined.

End NormalizerFacts.



(** C1 (the code departs from the claim).  The normalizer returns a string
    element as a url whatever the string is, and accepts a record whose
    pageContext is an array: the pair it produces for the string about has a
    url that does not start with a slash, and the pair for an array
    pageContext has a pageContext that is neither null nor a plain record.
    Neither is rejected with a usage error; the caller's own assertions on
    each pair then fail. *)
Theorem normalizePrerenderResult_unchecked_shapes :
  (forall (file s : string),
      Normalizer.normalizePrerenderResult file (VStr s)
      = (VStr s, Ok [mkEntry s VNull]))
  /\ startsWith "about" "/" = false
  /\ (forall file : string,
         snd (Pipeline.addPrerenderEntry file (mkEntry "about" VNull) emptyState)
         = Err AssertionFailure)
  /\ snd (Normalizer.normalizePrerenderResult "pages/b.page.server.js"
            (VObj [("url", VStr "/b"); ("pageContext", VArr [VNum 1])]%string))
     = Ok [mkEntry "/b" (VArr [VNum 1])]
  /\ isNull (VArr [VNum 1]) || isPlainObject (VArr [VNum 1]) = false.
Proof.
  split; [|split; [|split; [|split]]].
  - intros file s. reflexivity.
  - reflexivity.
  - intros file. reflexivity.
  - reflexivity.
  - reflexivity.
Qed.

(** ** The normalizer and its argument *)

Lemma normalize_frame (file : string) (el : value) :
  normalizeFrame el (fst (Normalizer.normalize file el)).
Proof.
  unfold Normalizer.normalize.
  destruct el; simpl; try (left; reflexivity).
  destruct (negb (obj_has "url" props)); [left; reflexivity|].
  destruct (negb (hasPropOfType (VObj props) "url" "string")); [left; reflexivity|].
  destruct (negb (startsWith _ "/")); [left; reflexivity|].
  destruct (find _ _); [left; reflexivity|].
  destruct (obj_has "pageContext" props) eqn:Hpc; simpl.
  - destruct (negb (hasPropOfType _ "pageContext" "object")); left; reflexivity.
  - assert (Hset : obj_set "pageContext" VNull props
                   = props ++ [("pageContext"%string, VNull)])
      by now apply obj_set_absent.
    destruct (negb (hasPropOfType _ "pageContext" "object")); simpl;
      right; exists props; rewrite Hset; auto.
Qed.






(** ** Phase 1: the page context store *)

Lemma addPrerenderEntry_record (file u : string) (pc : object) (s : State) :
  startsWith u "/" = true ->
  Pipeline.addPrerenderEntry file (mkEntry u (VObj pc)) s
  = (set_prerenderPageContexts
       (updateFirst (hasUrl u) (mergeHookContext pc) (storeWith file u s)) s,
     Ok tt).
Proof.
  intros Hu.
  unfold Pipeline.addPrerenderEntry, storeWith, bind, lift, get, modify, ret. simpl.
  rewrite Hu. simpl.
  destruct (find (hasUrl u) (prerenderPageContexts s)); reflexivity.
Qed.

Lemma distinct_obj_set (k : string) (v : value) (o : object) :
  wf_obj o = true -> wf_obj (obj_set k v o) = true.
Proof.
  unfold wf_obj.
  induction o as [|[k0 v0] o IH]; simpl; intros H.
  - reflexivity.
  - apply andb_prop in H. destruct H as [Hnew Hrest].
    destruct (String.eqb k0 k) eqn:E; simpl.
    + apply String.eqb_eq in E. subst k0. now rewrite Hnew, Hrest.
    + rewrite (IH Hrest), andb_true_r.
      apply negb_true_iff. apply negb_true_iff in Hnew.
      destruct (existsb (String.eqb k0) (obj_keys (obj_set k v o))) eqn:Hex; [|reflexivity].
      apply existsb_eqb_In in Hex.
      apply obj_get_key in Hex. destruct Hex as (x & Hx).
      rewrite obj_get_set in Hx. rewrite String.eqb_sym in E. rewrite E in Hx.
      assert (Hin : In k0 (obj_keys o)).
      { destruct (existsb (String.eqb k0) (obj_keys o)) eqn:Hin.
        - now apply existsb_eqb_In.
        - rewrite obj_get_not_key in Hx; [discriminate|].
          intros Hc. apply existsb_eqb_In in Hc. congruence. }
      apply existsb_eqb_In in Hin. congruence.
Qed.

Lemma distinct_objectAssign (target source : object) :
  wf_obj target = true -> wf_obj (objectAssign target source) = true.
Proof.
  unfold objectAssign. revert target.
  induction source as [|[k v] source IH]; simpl; intros target H.
  - exact H.
  - apply IH. now apply distinct_obj_set.
Qed.

(** What a key reads after the merge of a hook's pageContext. *)
Lemma obj_get_mergeHookContext (k : string) (pc found : object) :
  wf_obj pc = true ->
  obj_get k (mergeHookContext pc found) =
  match obj_get k pc with
  | Some v => Some v
  | None => if String.eqb markerKey k then Some (VBool true) else obj_get k found
  end.
Proof.
  intros Hwf. unfold mergeHookContext.
  rewrite obj_get_objectAssign.
  - rewrite obj_get_objectAssign by assumption.
    destruct (obj_get k pc); [reflexivity|].
    cbn [obj_get].
    destruct (String.eqb markerKey k); reflexivity.
  - now apply distinct_objectAssign.
Qed.

Lemma hasUrl_mergeHookContext (u : string) (pc found : object) :
  wf_obj pc = true -> obj_has "url" pc = false ->
  hasUrl u (mergeHookContext pc found) = hasUrl u found.
Proof.
  intros Hwf Hno. unfold hasUrl.
  rewrite obj_get_mergeHookContext by assumption.
  unfold obj_has in Hno. destruct (obj_get "url" pc); [discriminate|].
  reflexivity.
Qed.

Lemma find_updateFirst (p : object -> bool) (f : object -> object) (l : list object) :
  (forall x, p (f x) = p x) ->
  find p (updateFirst p f l) = option_map f (find p l).
Proof.
  intros Hp. induction l as [|x l IH]; simpl.
  - reflexivity.
  - destruct (p x) eqn:E; simpl.
    + now rewrite Hp, E.
    + now rewrite E.
Qed.

Lemma find_snoc {A} (p : A -> bool) (l : list A) (x : A) :
  find p (l ++ [x]) =
  match find p l with
  | Some y => Some y
  | None => if p x then Some x else None
  end.
Proof.
  induction l as [|y l IH]; simpl.
  - reflexivity.
  - destruct (p y); [reflexivity | exact IH].
Qed.

Lemma hasUrl_newPageContext (file u : string) (g : object) :
  hasUrl u (newPageContext file u g) = true.
Proof.
  unfold hasUrl, newPageContext. rewrite obj_get_set. simpl.
  apply String.eqb_refl.
Qed.

(** The store after a record entry: the page context of the URL, found or
    created, with the hook's pageContext merged into it. *)
Lemma find_after_entry (file u : string) (pc : object) (s : State) :
  wf_obj pc = true -> obj_has "url" pc = false ->
  find (hasUrl u) (updateFirst (hasUrl u) (mergeHookContext pc) (storeWith file u s))
  = Some (mergeHookContext pc
            (match find (hasUrl u) (prerenderPageContexts s) with
             | Some found => found
             | None => newPageContext file u (globalContext s)
             end)).
Proof.
  intros Hwf Hno.
  rewrite find_updateFirst by (intros x; now apply hasUrl_mergeHookContext).
  unfold storeWith.
  destruct (find (hasUrl u) (prerenderPageContexts s)) eqn:Ef.
  - now rewrite Ef.
  - rewrite find_snoc, Ef, hasUrl_newPageContext. reflexivity.
Qed.

(** C2 (amended).  When two hooks contribute a record pageContext for the
    same URL (the records carrying no url key of their own), the page
    context of that URL holds every key of the later record with the later
    value, and every key of the earlier record that the later one does not
    have (the marker key, which every merge sets, apart).  Its provenance
    is not overwritten: it stays what it was when the page context was
    created, the earlier hook's file when that hook created it. *)
Theorem two_hooks_same_url_merge
  (file1 file2 u : string) (pc1 pc2 : object) (s : State) :
  startsWith u "/" = true ->
  wf_obj pc1 = true -> wf_obj pc2 = true ->
  obj_has "url" pc1 = false -> obj_has "url" pc2 = false ->
  exists s1 s2 ctx,
    Pipeline.addPrerenderEntry file1 (mkEntry u (VObj pc1)) s = (s1, Ok tt)
    /\ Pipeline.addPrerenderEntry file2 (mkEntry u (VObj pc2)) s1 = (s2, Ok tt)
    /\ find (hasUrl u) (prerenderPageContexts s2) = Some ctx
    /\ (forall k v, obj_get k pc2 = Some v -> obj_get k ctx = Some v)
    /\ (forall k v, obj_get k pc1 = Some v -> obj_get k pc2 = None ->
                    k <> markerKey -> obj_get k ctx = Some v)
    /\ (obj_has "_prerenderSourceFile" pc1 = false ->
        obj_has "_prerenderSourceFile" pc2 = false ->
        obj_get "_prerenderSourceFile" ctx =
        match find (hasUrl u) (prerenderPageContexts s) with
        | Some found => obj_get "_prerenderSourceFile" found
        | None => Some (VStr file1)
        end).
Proof.
  intros Hu Hwf1 Hwf2 Hno1 Hno2.
  set (base := match find (hasUrl u) (prerenderPageContexts s) with
               | Some found => found
               | None => newPageContext file1 u (globalContext s)
               end).
  pose proof (find_after_entry file1 u pc1 s Hwf1 Hno1) as Hfind1.
  fold base in Hfind1.
  eexists. eexists. exists (mergeHookContext pc2 (mergeHookContext pc1 base)).
  split; [apply addPrerenderEntry_record; assumption|].
  split; [apply addPrerenderEntry_record; assumption|].
  split.
  { cbn [prerenderPageContexts set_prerenderPageContexts].
    rewrite find_after_entry by assumption.
    cbn [prerenderPageContexts set_prerenderPageContexts].
    now rewrite Hfind1. }
  split; [|split].
  - intros k v Hk. rewrite obj_get_mergeHookContext by assumption. now rewrite Hk.
  - intros k v Hk1 Hk2 Hmark.
    rewrite obj_get_mergeHookContext by assumption. rewrite Hk2.
    apply String.eqb_neq in Hmark. rewrite String.eqb_sym in Hmark. rewrite Hmark.
    rewrite obj_get_mergeHookContext by assumption. now rewrite Hk1.
  - intros Hp1 Hp2. unfold obj_has in Hp1, Hp2.
    rewrite obj_get_mergeHookContext by assumption.
    destruct (obj_get "_prerenderSourceFile" pc2); [discriminate|].
    change (String.eqb markerKey "_prerenderSourceFile") with false. cbv iota.
    rewrite obj_get_mergeHookContext by assumption.
    destruct (obj_get "_prerenderSourceFile" pc1); [discriminate|].
    change (String.eqb markerKey "_prerenderSourceFile") with false. cbv iota.
    unfold base. destruct (find (hasUrl u) (prerenderPageContexts s)); [reflexivity|].
    unfold newPageContext. rewrite !obj_get_set.
    change (String.eqb "url" "_prerenderSourceFile") with false. cbv iota.
    now rewrite String.eqb_refl.
Qed.

Lemma two_hooks_same_url_merge_witness :
  exists s1 s2 ctx,
    Pipeline.addPrerenderEntry "pages/a.page.server.js"
      (mkEntry "/a" (VObj [("title"%string, VStr "A")])) emptyState = (s1, Ok tt)
    /\ Pipeline.addPrerenderEntry "pages/b.page.server.js"
         (mkEntry "/a" (VObj [("lang"%string, VStr "en")])) s1 = (s2, Ok tt)
    /\ find (hasUrl "/a") (prerenderPageContexts s2) = Some ctx
    /\ (forall k v, obj_get k [("lang"%string, VStr "en")] = Some v -> obj_get k ctx = Some v)
    /\ (forall k v, obj_get k [("title"%string, VStr "A")] = Some v ->
                    obj_get k [("lang"%string, VStr "en")] = None ->
                    k <> markerKey -> obj_get k ctx = Some v)
    /\ (obj_has "_prerenderSourceFile" [("title"%string, VStr "A")] = false ->
        obj_has "_prerenderSourceFile" [("lang"%string, VStr "en")] = false ->
        obj_get "_prerenderSourceFile" ctx =
        match find (hasUrl "/a") (prerenderPageContexts emptyState) with
        | Some found => obj_get "_prerenderSourceFile" found
        | None => Some (VStr "pages/a.page.server.js")
        end).
Proof.
  apply (two_hooks_same_url_merge "pages/a.page.server.js" "pages/b.page.server.js" "/a"
           [("title"%string, VStr "A")] [("lang"%string, VStr "en")] emptyState);
    reflexivity.
Defined.

(** C2, as stated, fails: after both hooks have run, the page context of /a
    holds the keys of both records, and its provenance is still the file of
    the hook that ran first, not the later one's. *)
Lemma later_hook_does_not_take_provenance :
  let s := fst (Pipeline.callPrerenderHooks twoHooksCall twoHookFiles emptyState) in
  exists ctx,
    prerenderPageContexts s = [ctx]
    /\ calls s = [(0, []); (1, [])]
    /\ obj_get "title" ctx = Some (VStr "A")
    /\ obj_get "lang" ctx = Some (VStr "en")
    /\ obj_get "_prerenderSourceFile" ctx = Some (VStr "pages/a.page.server.js")
    /\ obj_get "_prerenderSourceFile" ctx <> Some (VStr "pages/b.page.server.js").
Proof.
  eexists. split; [vm_compute; reflexivity|].
  repeat split; try reflexivity.
  vm_compute. discriminate.
Qed.

(** ** Aborting runs *)




Section AbortOnBadExport.

Variable call : nat -> list value -> outcome.
Variable p : PageFile.
Hypothesis notExcluded : truthy (fileExport p "doNotPrerender") = false.
Hypothesis present : truthy (fileExport p "prerender") = true.
Hypothesis notCallable : isCallable (fileExport p "prerender") = false.



End AbortOnBadExport.

Section WholeRun.

Variable call : nat -> list value -> outcome.
Variable route : object -> RouteResult.
Variable loadPageFilesServer : object -> object.
Variable prerenderPage : object -> result (string * option string).
Variable renderStatic404Page : object -> option (string * object).
Variable getFileUrl : string -> string -> bool -> string.
Variable isErrorPage : string -> bool.
Variable isStaticRoute : string -> bool.
Variable join : list string -> string.


End WholeRun.


(** ** The coverage validator: contradictions *)

Lemma inDoNotPrerenderList_some (l : DoNotPrerenderList) (id : string) (hit : DoNotPrerenderEntry) :
  inDoNotPrerenderList l id = Some hit -> In hit l /\ dnp_pageId hit = id.
Proof.
  unfold inDoNotPrerenderList. intros H. apply find_some in H.
  destruct H as [Hin Heq]. apply String.eqb_eq in Heq. now split.
Qed.

Lemma inDoNotPrerenderList_none (l : DoNotPrerenderList) (id : string) :
  inDoNotPrerenderList l id = None -> ~ In id (map dnp_pageId l).
Proof.
  unfold inDoNotPrerenderList. intros H Hin.
  apply in_map_iff in Hin. destruct Hin as (hit & Heq & Hin).
  pose proof (find_none _ _ H hit Hin) as Hf. cbv beta in Hf.
  rewrite Heq, String.eqb_refl in Hf. discriminate.
Qed.



(** ** Warnings *)

Lemma sameButWarned_refl (s : State) : sameButWarned s s.
Proof. unfold sameButWarned. now destruct s. Qed.

Lemma sameButWarned_trans (a b c : State) :
  sameButWarned a b -> sameButWarned b c -> sameButWarned a c.
Proof.
  unfold sameButWarned, set_warned. destruct a, b, c. cbn.
  intros Hab Hbc. injection Hab as -> -> -> -> ->. injection Hbc as -> -> -> -> ->.
  reflexivity.
Qed.

Lemma warnOnce_spec (msg : string) (s : State) :
  sameButWarned s (warnOnce msg s)
  /\ In msg (warned (warnOnce msg s))
  /\ (NoDup (warned s) -> NoDup (warned (warnOnce msg s)))
  /\ exists extra, warned (warnOnce msg s) = warned s ++ extra
                   /\ forall m, In m extra -> m = msg.
Proof.
  unfold warnOnce.
  destruct (existsb (String.eqb msg) (warned s)) eqn:E.
  - apply existsb_eqb_In in E.
    split; [apply sameButWarned_refl|]. split; [assumption|]. split; [auto|].
    exists []. rewrite app_nil_r. split; [reflexivity | intros m []].
  - assert (Hnot : ~ In msg (warned s)).
    { intros Hin. apply existsb_eqb_In in Hin. congruence. }
    split; [reflexivity|]. cbn [warned set_warned].
    split; [apply in_or_app; right; now left|].
    split.
    + intros Hnd. apply NoDup_app; [assumption | repeat constructor; intros [] |].
      intros m Hm [<- | []]. contradiction.
    + exists [msg]. split; [reflexivity | intros m [<- | []]; reflexivity].
Qed.

Lemma forEachM_assertWarning {A} (condition : bool) (msg : A -> string) (l : list A) (s : State) :
  forEachM (fun x => assertWarning condition (msg x)) l s
  = (if condition then s else fold_left (fun s x => warnOnce (msg x) s) l s, Ok tt).
Proof.
  revert s. induction l as [|x l IH]; intros s; cbn [forEachM fold_left].
  - destruct condition; reflexivity.
  - unfold bind, assertWarning. destruct condition.
    + unfold ret. now rewrite IH.
    + unfold modify. fold (warnOnce (msg x) s). now rewrite IH.
Qed.

Lemma fold_warnOnce_spec {A} (msg : A -> string) (l : list A) (s : State) :
  let s' := fold_left (fun s x => warnOnce (msg x) s) l s in
  sameButWarned s s'
  /\ (forall x, In x l -> In (msg x) (warned s'))
  /\ (NoDup (warned s) -> NoDup (warned s'))
  /\ exists extra, warned s' = warned s ++ extra
                   /\ forall m, In m extra -> exists x, In x l /\ m = msg x.
Proof.
  revert s. induction l as [|x l IH]; intros s; cbn [fold_left].
  - split; [apply sameButWarned_refl|]. split; [intros x []|]. split; [auto|].
    exists []. rewrite app_nil_r. split; [reflexivity | intros m []].
  - destruct (warnOnce_spec (msg x) s) as (Hsame1 & Hin1 & Hnd1 & extra1 & Hex1 & Hall1).
    destruct (IH (warnOnce (msg x) s)) as (Hsame & Hin & Hnd & extra & Hex & Hall).
    cbv zeta. split; [|split; [|split]].
    + now apply sameButWarned_trans with (b := warnOnce (msg x) s).
    + intros y [<- | Hy]; [|now apply Hin].
      rewrite Hex. apply in_or_app. now left.
    + auto.
    + exists (extra1 ++ extra). split.
      * rewrite Hex, Hex1. now rewrite app_assoc.
      * intros m Hm. apply in_app_or in Hm. destruct Hm as [Hm | Hm].
        -- exists x. split; [now left | now apply Hall1].
        -- destruct (Hall m Hm) as (y & Hy & ->). exists y. split; [now right | reflexivity].
Qed.

Section MissingPages.

Variable isErrorPage : string -> bool.

Lemma missingPages_In (prerenderPageIds : PrerenderedPageIds)
  (doNotPrerenderList : DoNotPrerenderList) (allPageIds : list string) (id : string) :
  In id (Pipeline.missingPages isErrorPage prerenderPageIds doNotPrerenderList allPageIds)
  <-> In id allPageIds
      /\ ~ In id (map fst prerenderPageIds)
      /\ ~ In id (map dnp_pageId doNotPrerenderList)
      /\ isErrorPage id = false.
Proof.
  unfold Pipeline.missingPages. rewrite !filter_In, !negb_true_iff.
  assert (Hr : existsb (String.eqb id) (map fst prerenderPageIds) = false
               <-> ~ In id (map fst prerenderPageIds)).
  { rewrite <- existsb_eqb_In. now destruct (existsb _ _). }
  assert (Hd : isSome (inDoNotPrerenderList doNotPrerenderList id) = false
               <-> ~ In id (map dnp_pageId doNotPrerenderList)).
  { destruct (inDoNotPrerenderList doNotPrerenderList id) as [hit|] eqn:E; cbn.
    - apply inDoNotPrerenderList_some in E. destruct E as [Hin <-].
      split; [discriminate|]. intros H. exfalso. apply H.
      apply in_map_iff. now exists hit.
    - apply inDoNotPrerenderList_none in E. tauto. }
  tauto.
Qed.

(** C6.  [warnMissingPages] never throws and changes nothing but the
    warnings printed.  In a partial run it prints nothing.  Otherwise every
    page id of the inventory that is neither rendered nor excluded nor an
    error page has its warning on the console afterwards; a message that was
    printed before is not printed again, so the console holds each message
    at most once; and nothing is printed but such warnings. *)
Theorem warnMissingPages_warns_once
  (prerenderPageIds : PrerenderedPageIds) (doNotPrerenderList : DoNotPrerenderList)
  (allPageIds : list string) (partial : bool) (s : State) :
  let after := Pipeline.warnMissingPages isErrorPage prerenderPageIds doNotPrerenderList
                 allPageIds partial s in
  let uncovered id :=
    In id allPageIds
    /\ ~ In id (map fst prerenderPageIds)
    /\ ~ In id (map dnp_pageId doNotPrerenderList)
    /\ isErrorPage id = false in
  snd after = Ok tt
  /\ sameButWarned s (fst after)
  /\ (partial = true -> fst after = s)
  /\ (partial = false ->
      forall id, uncovered id -> In (Pipeline.msgMissingPage id) (warned (fst after)))
  /\ (NoDup (warned s) -> NoDup (warned (fst after)))
  /\ exists extra,
       warned (fst after) = warned s ++ extra
       /\ forall m, In m extra ->
                    exists id, uncovered id /\ m = Pipeline.msgMissingPage id.
Proof.
  cbv zeta. unfold Pipeline.warnMissingPages.
  rewrite forEachM_assertWarning. cbn [fst snd].
  split; [reflexivity|].
  destruct partial.
  - split; [apply sameButWarned_refl|]. split; [reflexivity|].
    split; [discriminate|]. split; [auto|].
    exists []. rewrite app_nil_r. split; [reflexivity | intros m []].
  - destruct (fold_warnOnce_spec Pipeline.msgMissingPage
                (Pipeline.missingPages isErrorPage prerenderPageIds doNotPrerenderList
                   allPageIds) s)
      as (Hsame & Hin & Hnd & extra & Hex & Hall).
    split; [assumption|]. split; [discriminate|].
    split; [|split; [assumption|]].
    + intros _ id Hid. apply Hin. now apply missingPages_In.
    + exists extra. split; [assumption|].
      intros m Hm. destruct (Hall m Hm) as (id & Hid & ->).
      exists id. split; [now apply missingPages_In | reflexivity].
Qed.

End MissingPages.

(** ** The deprecated options *)

Lemma bind_assoc {A B C} (m : M A) (f : A -> M B) (g : B -> M C) (s : State) :
  bind (bind m f) g s = bind m (fun a => bind (f a) g) s.
Proof. unfold bind. destruct (m s) as [s' [a|e]]; reflexivity. Qed.

Lemma bind_ret {A B} (a : A) (k : A -> M B) (s : State) : bind (ret a) k s = k a s.
Proof. reflexivity. Qed.

Lemma bind_assertUsage {B} (condition : bool) (msg : string) (k : unit -> M B) (s : State) :
  bind (lift (assertUsage condition msg)) k s
  = if condition then k tt s else (s, Err (UsageError msg)).
Proof. unfold bind, lift, assertUsage. now destruct condition. Qed.

Lemma bind_assertWarning {B} (condition : bool) (msg : string) (k : unit -> M B) (s : State) :
  bind (assertWarning condition msg) k s
  = k tt (if condition then s else warnOnce msg s).
Proof. unfold bind, assertWarning. now destruct condition. Qed.

Lemma checkOutdatedOptions_eval (o : Pipeline.Options) (s : State) :
  Pipeline.checkOutdatedOptions o s =
  if supplied (Pipeline.opt_noExtraDir o) then
    (s, Err (UsageError (Pipeline.msgDeprecated "noExtraDir")))
  else if supplied (Pipeline.opt_partial o) then
    (s, Err (UsageError (Pipeline.msgDeprecated "partial")))
  else if supplied (Pipeline.opt_parallel o) then
    (s, Err (UsageError (Pipeline.msgDeprecated "parallel")))
  else
    let w := afterDeprecationWarnings o s in
    if negb (isUndefined (Pipeline.opt_root o) || Pipeline.isString (Pipeline.opt_root o)) then
      (w, Err (UsageError "[prerender()] Option `root` should be a string."))
    else if negb (isUndefined (Pipeline.opt_root o) || Pipeline.isAbsolute (Pipeline.opt_root o)) then
      (w, Err (UsageError "[prerender()] The path `root` is not absolute. Make sure to provide an absolute path."))
    else if negb (outDirAccepted o) then
      (w, Err (UsageError "[prerender()] Option `outDir` should be a string."))
    else (w, Ok tt).
Proof.
  unfold Pipeline.checkOutdatedOptions, afterDeprecationWarnings, warnIfSupplied,
    outDirAccepted, supplied.
  cbn [forEachM].
  change (Pipeline.option_of o "noExtraDir") with (Pipeline.opt_noExtraDir o).
  change (Pipeline.option_of o "partial") with (Pipeline.opt_partial o).
  change (Pipeline.option_of o "parallel") with (Pipeline.opt_parallel o).
  change (Pipeline.option_of o "base") with (Pipeline.opt_base o).
  change (Pipeline.option_of o "root") with (Pipeline.opt_root o).
  change (Pipeline.option_of o "outDir") with (Pipeline.opt_outDir o).
  rewrite ?bind_assoc, bind_assertUsage.
  destruct (isUndefined (Pipeline.opt_noExtraDir o)); cbn [negb]; [|reflexivity].
  rewrite ?bind_assoc, bind_assertUsage.
  destruct (isUndefined (Pipeline.opt_partial o)); cbn [negb]; [|reflexivity].
  rewrite ?bind_assoc, bind_assertUsage.
  destruct (isUndefined (Pipeline.opt_parallel o)); cbn [negb]; [|reflexivity].
  rewrite bind_ret, ?bind_assoc, bind_assertWarning.
  rewrite ?bind_assoc, bind_assertWarning.
  rewrite ?bind_assoc, bind_assertWarning.
  rewrite bind_ret.
  cbv zeta. cbn [orb].
  rewrite !bind_assertUsage.
  set (w := if isUndefined (Pipeline.opt_outDir o) then _ else _).
  destruct (isUndefined (Pipeline.opt_root o) || Pipeline.isString (Pipeline.opt_root o));
    cbn [negb]; [|reflexivity].
  destruct (isUndefined (Pipeline.opt_root o) || Pipeline.isAbsolute (Pipeline.opt_root o));
    cbn [negb]; [|reflexivity].
  destruct (isUndefined (Pipeline.opt_outDir o) || Pipeline.isString (Pipeline.opt_outDir o));
    cbn [negb]; reflexivity.
Qed.

Lemma warnIfSupplied_spec (prop : string) (v : value) (s : State) :
  let s' := warnIfSupplied prop v s in
  sameButWarned s s'
  /\ (supplied v = true -> In (Pipeline.msgNoEffect prop) (warned s'))
  /\ (NoDup (warned s) -> NoDup (warned s'))
  /\ (forall m, In m (warned s) -> In m (warned s'))
  /\ (supplied v = false -> s' = s).
Proof.
  cbv zeta. unfold warnIfSupplied, supplied.
  destruct (isUndefined v); cbn [negb].
  - split; [apply sameButWarned_refl|]. split; [discriminate|]. auto.
  - destruct (warnOnce_spec (Pipeline.msgNoEffect prop) s)
      as (Hsame & Hin & Hnd & extra & Hex & _).
    split; [assumption|]. split; [auto|]. split; [assumption|].
    split; [|discriminate].
    intros m Hm. rewrite Hex. apply in_or_app. now left.
Qed.

Lemma rootAccepted_checks (o : Pipeline.Options) :
  (isUndefined (Pipeline.opt_root o) || Pipeline.isString (Pipeline.opt_root o))
  && (isUndefined (Pipeline.opt_root o) || Pipeline.isAbsolute (Pipeline.opt_root o))
  = rootAccepted o.
Proof.
  unfold rootAccepted. destruct (isUndefined (Pipeline.opt_root o)); cbn [orb andb];
    reflexivity.
Qed.

Lemma msgDeprecated_mentions_config (prop : string) :
  mentions (Pipeline.msgDeprecated prop) "vite.config.js".
Proof.
  exists ("[prerender()] Option `" ^^ prop ^^ "` is deprecated. Define `" ^^ prop ^^ "` in `"),
         "` instead. See https://vite-plugin-ssr.com/config"%string.
  unfold Pipeline.msgDeprecated. rewrite !append_assoc. reflexivity.
Qed.

Section EntryPoint.

Variable call : nat -> list value -> outcome.
Variable route : object -> RouteResult.
Variable loadPageFilesServer : object -> object.
Variable prerenderPage : object -> result (string * option string).
Variable renderStatic404Page : object -> option (string * object).
Variable getFileUrl : string -> string -> bool -> string.
Variable isErrorPage : string -> bool.
Variable isStaticRoute : string -> bool.
Variable join : list string -> string.

Let prerender := run call route loadPageFilesServer prerenderPage renderStatic404Page
                   getFileUrl isErrorPage isStaticRoute join.

(** C8 (amended).  Each of the deprecated options noExtraDir, partial and
    parallel, when supplied, makes [checkOutdatedOptions] throw a usage error
    that sends the caller to vite.config.js, before anything is printed.
    When none of them is supplied, base, root and outDir each print their
    warning, once per message, and change nothing else of the state; the
    check then passes when root is not given or is an absolute path string
    and outDir is not given or is a string, and throws a usage error
    otherwise.  When the check passes, the run goes on as the run without
    deprecated options does from the state the check left. *)
Theorem checkOutdatedOptions_outcome (o : Pipeline.Options) (s : State) :
  (rejectedOptionSupplied o = true ->
   exists msg,
     Pipeline.checkOutdatedOptions o s = (s, Err (UsageError msg))
     /\ mentions msg "vite.config.js")
  /\ (rejectedOptionSupplied o = false ->
      let w := afterDeprecationWarnings o s in
      (if rootAccepted o && outDirAccepted o
       then Pipeline.checkOutdatedOptions o s = (w, Ok tt)
       else exists msg, Pipeline.checkOutdatedOptions o s = (w, Err (UsageError msg)))
      /\ sameButWarned s w
      /\ (NoDup (warned s) -> NoDup (warned w))
      /\ (forall prop, In prop ["base"; "root"; "outDir"]%string ->
                       supplied (Pipeline.option_of o prop) = true ->
                       In (Pipeline.msgNoEffect prop) (warned w))
      /\ (supplied (Pipeline.opt_base o) || supplied (Pipeline.opt_root o)
          || supplied (Pipeline.opt_outDir o) = false -> w = s))
  /\ (forall setup onPagePrerender pageContextInit s1,
         Pipeline.checkOutdatedOptions o s = (s1, Ok tt) ->
         prerender setup onPagePrerender pageContextInit o s
         = prerender setup onPagePrerender pageContextInit noDeprecatedOptions s1).
Proof.
  split; [|split].
  - unfold rejectedOptionSupplied. intros Hsup.
    rewrite checkOutdatedOptions_eval.
    destruct (supplied (Pipeline.opt_noExtraDir o));
      [|destruct (supplied (Pipeline.opt_partial o));
        [|destruct (supplied (Pipeline.opt_parallel o)); [|discriminate]]];
      eexists; (split; [reflexivity|]);
      apply msgDeprecated_mentions_config.
  - unfold rejectedOptionSupplied. intros Hnone.
    apply orb_false_iff in Hnone. destruct Hnone as [Hnone Hpar].
    apply orb_false_iff in Hnone. destruct Hnone as [Hned Hpartial].
    cbv zeta.
    destruct (warnIfSupplied_spec "base" (Pipeline.opt_base o) s)
      as (Hs1 & Hi1 & Hn1 & Hk1 & He1).
    destruct (warnIfSupplied_spec "root" (Pipeline.opt_root o)
                (warnIfSupplied "base" (Pipeline.opt_base o) s))
      as (Hs2 & Hi2 & Hn2 & Hk2 & He2).
    destruct (warnIfSupplied_spec "outDir" (Pipeline.opt_outDir o)
                (warnIfSupplied "root" (Pipeline.opt_root o)
                   (warnIfSupplied "base" (Pipeline.opt_base o) s)))
      as (Hs3 & Hi3 & Hn3 & Hk3 & He3).
    cbv zeta in *. fold (afterDeprecationWarnings o s) in *.
    split; [|split; [|split; [|split]]].
    + rewrite checkOutdatedOptions_eval, Hned, Hpartial, Hpar. cbv zeta.
      rewrite <- rootAccepted_checks.
      destruct (isUndefined (Pipeline.opt_root o) || Pipeline.isString (Pipeline.opt_root o));
        cbn [negb andb]; [|eauto].
      destruct (isUndefined (Pipeline.opt_root o) || Pipeline.isAbsolute (Pipeline.opt_root o));
        cbn [negb andb]; [|eauto].
      destruct (outDirAccepted o); cbn [negb]; eauto.
    + eapply sameButWarned_trans; [|exact Hs3].
      eapply sameButWarned_trans; [exact Hs1 | exact Hs2].
    + auto.
    + intros prop [<- | [<- | [<- | []]]] Hsup.
      * apply Hk3, Hk2, Hi1. exact Hsup.
      * apply Hk3, Hi2. exact Hsup.
      * apply Hi3. exact Hsup.
    + intros Hno.
      apply orb_false_iff in Hno. destruct Hno as [Hno Hout].
      apply orb_false_iff in Hno. destruct Hno as [Hbase Hroot].
      now rewrite (He3 Hout), (He2 Hroot), (He1 Hbase).
  - intros setup sink init s1 Hok.
    unfold prerender, run, Pipeline.prerender.
    unfold bind at 1. rewrite Hok.
    unfold bind at 2.
    replace (Pipeline.checkOutdatedOptions noDeprecatedOptions s1) with (s1, Ok tt : result unit);
      [reflexivity|].
    rewrite checkOutdatedOptions_eval. reflexivity.
Qed.

End EntryPoint.

(** C8, as stated, fails: the output directory override is not in the
    rejected group (supplying it prints a warning and the check passes), and
    the options that only warn are not accepted for any value (a root that is
    not an absolute path is a usage error). *)
Lemma outDir_override_is_not_rejected :
  let withOutDir :=
    Pipeline.mkOptions VUndefined VUndefined VUndefined VUndefined (VStr "build") VUndefined in
  let withRoot :=
    Pipeline.mkOptions VUndefined VUndefined VUndefined (VStr "relative/path") VUndefined
      VUndefined in
  Pipeline.checkOutdatedOptions withOutDir emptyState
  = (set_warned [Pipeline.msgNoEffect "outDir"] emptyState, Ok tt)
  /\ isUsageError (snd (Pipeline.checkOutdatedOptions withOutDir emptyState)) = false
  /\ isUsageError (snd (Pipeline.checkOutdatedOptions withRoot emptyState)) = true.
Proof.
  cbv zeta. split; [|split]; reflexivity.
Qed.

(** ** Phase 3: the onBeforePrerender() hook *)

Lemma bind_get {B} (k : State -> M B) (s : State) : bind get k s = k s s.
Proof. reflexivity. Qed.

Lemma bind_modify {B} (f : State -> State) (k : unit -> M B) (s : State) :
  bind (modify f) k s = k tt (f s).
Proof. reflexivity. Qed.

Lemma bind_invoke {B} (call : nat -> list value -> outcome) (f : nat) (args : list value)
  (k : outcome -> M B) (s : State) :
  bind (Pipeline.invoke call f args) k s
  = k (call f args) (set_calls (calls s ++ [(f, args)]) s).
Proof. reflexivity. Qed.

(** A well-formed object whose every key is [key] and that has [key] is the
    object with that one property. *)
Lemma single_key_object (key : string) (o : object) :
  forallb (fun k => existsb (String.eqb k) [key]) (obj_keys o) = true ->
  wf_obj o = true ->
  obj_has key o = true ->
  exists v, o = [(key, v)].
Proof.
  unfold wf_obj, obj_has.
  destruct o as [|[k0 v0] rest]; cbn [obj_keys map fst forallb distinct obj_get].
  - discriminate.
  - intros Hkeys Hwf _.
    apply andb_prop in Hkeys. destruct Hkeys as [Hk0 Hrest].
    apply existsb_eqb_In in Hk0. destruct Hk0 as [<- | []].
    destruct rest as [|[k1 v1] rest].
    + now exists v0.
    + cbn [map fst forallb] in Hrest.
      apply andb_prop in Hrest. destruct Hrest as [Hk1 _].
      apply existsb_eqb_In in Hk1. destruct Hk1 as [<- | []].
      apply andb_prop in Hwf. destruct Hwf as [Hnew _].
      cbn [map fst existsb] in Hnew. rewrite String.eqb_refl in Hnew. discriminate.
Qed.

Section GlobalHook.

Variable call : nat -> list value -> outcome.

(** C5 (amended).  Over the default page-server files whose
    onBeforePrerender export is truthy: none, and nothing happens; more than
    one, and the phase throws a usage error; exactly one whose export is no
    function, and it throws a usage error naming the file, without invoking
    anything; exactly one whose export is a function, and that function is
    invoked with the current global context.  Then a null or undefined
    return leaves the global context as it is; a return
    [{ globalContext: record }] is merged into the global context, the
    record's keys winning; any other return throws a usage error naming the
    file. *)
Theorem callOnBeforePrerenderHook_outcome (files : list PageFile) (s : State) :
  let hooks := Pipeline.onBeforePrerenderHooks files in
  let go := Pipeline.callOnBeforePrerenderHook call files s in
  (hooks = [] -> go = (s, Ok tt))
  /\ (1 < length hooks -> exists msg, go = (s, Err (UsageError msg)))
  /\ (forall file v, hooks = [(file, v)] -> isCallable v = false ->
        exists msg, go = (s, Err (UsageError msg)) /\ mentions msg file)
  /\ (forall file f, hooks = [(file, VFun f)] ->
        let invoked := set_calls (calls s ++ [(f, [VObj (globalContext s)])]) s in
        match call f [VObj (globalContext s)] with
        | Throws err => go = (invoked, Err (HookFailure err))
        | Returns r =>
            (r = VNull \/ r = VUndefined -> go = (invoked, Ok tt))
            /\ (forall addendum,
                   r = VObj [("globalContext"%string, VObj addendum)] ->
                   go = (set_globalContext (objectAssign (globalContext s) addendum) invoked,
                         Ok tt)
                   /\ (wf_obj addendum = true ->
                       forall k,
                         obj_get k (objectAssign (globalContext s) addendum)
                         = match obj_get k addendum with
                           | Some x => Some x
                           | None => obj_get k (globalContext s)
                           end))
            /\ (r <> VNull -> r <> VUndefined -> wf_value r = true ->
                (forall addendum, r <> VObj [("globalContext"%string, VObj addendum)]) ->
                exists msg, go = (invoked, Err (UsageError msg)) /\ mentions msg file)
        end).
Proof.
  cbv zeta. unfold Pipeline.callOnBeforePrerenderHook.
  split; [|split; [|split]].
  - intros ->. reflexivity.
  - destruct (Pipeline.onBeforePrerenderHooks files) as [|hook [|hook' rest]];
      cbn [length]; intros Hlen; try lia.
    rewrite bind_assertUsage. cbn [Nat.eqb]. eauto.
  - intros file v -> Hv. cbn [length Nat.eqb].
    rewrite bind_assertUsage, bind_assertUsage, Hv.
    eexists. split; [reflexivity|].
    unfold Pipeline.msgHookNotFunction. auto with msgs.
  - intros file f ->. cbn [length Nat.eqb isCallable].
    rewrite bind_assertUsage, bind_assertUsage, bind_get, bind_invoke.
    destruct (call f [VObj (globalContext s)]) as [r | err]; [|reflexivity].
    split; [|split].
    + intros [-> | ->]; reflexivity.
    + intros addendum ->. split; [reflexivity|].
      intros Hwf k. now apply obj_get_objectAssign.
    + intros Hnull Hundef Hwf Hshape.
      destruct (isNull r || isUndefined r) eqn:Hnu.
      { destruct r; try discriminate; congruence. }
      rewrite bind_assertUsage.
      destruct (isObjectWithKeys r ["globalContext"%string] && hasProp r "globalContext")
        eqn:Hkeys.
      * apply andb_prop in Hkeys. destruct Hkeys as [Hall Hhas].
        destruct r as [| | | | | | |o]; try discriminate.
        cbn [isObjectWithKeys] in Hall. cbn [hasProp] in Hhas. cbn [wf_value] in Hwf.
        destruct (single_key_object "globalContext" o Hall Hwf Hhas) as (v & ->).
        rewrite bind_assertUsage.
        destruct v; try (eexists; split; [reflexivity|];
                         unfold Pipeline.msgHookGlobalContext, Pipeline.errPrefix;
                         auto 6 with msgs).
        exfalso. now apply (Hshape props).
      * eexists. split; [reflexivity|].
        unfold Pipeline.msgHookReturn, Pipeline.errPrefix. auto 6 with msgs.
Qed.

End GlobalHook.

(** C5, as stated, fails: a single default page-server file whose
    onBeforePrerender export is the number 1 declares the hook, and the
    phase throws a usage error without invoking anything. *)
Lemma declared_hook_that_is_no_function_is_not_invoked :
  let files :=
    [mkPageFile ".page.server" true "renderer/_default.page.server.js" "/renderer/_default"
       (Some [("onBeforePrerender"%string, VNum 1)])] in
  length (Pipeline.onBeforePrerenderHooks files) = 1
  /\ calls (fst (Pipeline.callOnBeforePrerenderHook Demo.call files emptyState)) = []
  /\ isUsageError (snd (Pipeline.callOnBeforePrerenderHook Demo.call files emptyState)) = true.
Proof.
  cbv zeta. split; [|split]; reflexivity.
Qed.

(** ** The order of the phases *)










Lemma appendsOnly_weaken {A} (P Q : event -> Prop) (m : M A) :
  (forall e, P e -> Q e) -> appendsOnly P m -> appendsOnly Q m.
Proof.
  intros HPQ Hm s s' r H. destruct (Hm _ _ _ H) as (l & E & F).
  exists l. split; [assumption|]. eapply Forall_impl; eauto.
Qed.




Section PhaseOrder.

Variable call : nat -> list value -> outcome.
Variable route : object -> RouteResult.
Variable loadPageFilesServer : object -> object.
Variable prerenderPage : object -> result (string * option string).
Variable renderStatic404Page : object -> option (string * object).
Variable getFileUrl : string -> string -> bool -> string.
Variable isErrorPage : string -> bool.
Variable isStaticRoute : string -> bool.
Variable join : list string -> string.










End PhaseOrder.




Section PhaseOrderOfRun.

Variable call : nat -> list value -> outcome.
Variable route : object -> RouteResult.
Variable loadPageFilesServer : object -> object.
Variable prerenderPage : object -> result (string * option string).
Variable renderStatic404Page : object -> option (string * object).
Variable getFileUrl : string -> string -> bool -> string.
Variable isErrorPage : string -> bool.
Variable isStaticRoute : string -> bool.
Variable join : list string -> string.


End PhaseOrderOfRun.




(** A rendered page without a hook source file can be in the exclusion list:
    a page with a static route whose URL the routing resolver gives to an
    excluded page.  The run then ends on the internal assertion of the
    contradiction check. *)
Lemma contradiction_without_hook_reachable :
  let shop :=
    mkPageFile ".page.server" false "pages/shop.page.server.js" "/pages/shop"
      (Some [("doNotPrerender"%string, VBool true)]) in
  let setup :=
    Pipeline.mkSetup (Some "vite.config.js"%string) "/app" true (Ok tt) None None None 4
      [("_isProduction"%string, VBool true)]
      [shop] ["/pages/about"; "/pages/shop"]%string
      [mkPageRoute "/pages/about" None "/about"] in
  let routeToShop (pageContext : object) :=
    RouteAddendum [("_pageId"%string, VStr "/pages/shop")] in
  let outcome :=
    run Demo.call routeToShop Demo.loadPageFilesServer Demo.prerenderPage
      Demo.renderStatic404Page Demo.getFileUrl Demo.isErrorPage Demo.isStaticRoute
      Demo.join setup None None noDeprecatedOptions emptyState in
  snd outcome = Err AssertionFailure
  /\ events (fst outcome) = [EvDocument "/about"; EvContradictionCheck].
Proof.
  cbv zeta. split; vm_compute; reflexivity.
Qed.

(** * More properties of the pipeline *)

(** ** The page context store under [addPrerenderEntry] *)

Lemma set_prerenderPageContexts_same (s : State) :
  set_prerenderPageContexts (prerenderPageContexts s) s = s.
Proof. now destruct s. Qed.

Lemma addPrerenderEntry_eval (file : string) (entry : PrerenderEntry) (s : State) :
  Pipeline.addPrerenderEntry file entry s =
  if negb (startsWith (url entry) "/") then (s, Err AssertionFailure)
  else
    match pageContext entry with
    | VNull =>
        (set_prerenderPageContexts (storeWith file (url entry) s) s, Ok tt)
    | VObj pc =>
        (set_prerenderPageContexts
           (updateFirst (hasUrl (url entry)) (mergeHookContext pc)
              (storeWith file (url entry) s)) s, Ok tt)
    | _ => (s, Err AssertionFailure)
    end.
Proof.
  destruct entry as [u pc]. cbn [url pageContext].
  destruct (startsWith u "/") eqn:Hu; cbn [negb].
  - destruct pc;
      try (unfold Pipeline.addPrerenderEntry, bind, lift, assert; cbn [url pageContext];
           rewrite Hu; reflexivity).
    + unfold Pipeline.addPrerenderEntry, storeWith, bind, lift, get, modify, ret, assert.
      cbn [url pageContext isNull isPlainObject orb]. rewrite Hu. cbn [fst snd].
      destruct (find (hasUrl u) (prerenderPageContexts s)); cbn.
      * now rewrite set_prerenderPageContexts_same.
      * reflexivity.
    + now apply addPrerenderEntry_record.
  - unfold Pipeline.addPrerenderEntry, bind, lift, assert. cbn [url pageContext].
    now rewrite Hu.
Qed.

Lemma hasUrl_urlOf (u : string) (ctx : object) :
  hasUrl u ctx = true <-> urlOf ctx = Some u.
Proof.
  unfold hasUrl, urlOf. destruct (obj_get "url" ctx) as [[| | | |s| | |]|];
    try (split; discriminate).
  rewrite String.eqb_eq. split; congruence.
Qed.

Lemma hasUrl_same_urlOf (u : string) (a b : object) :
  urlOf a = urlOf b -> hasUrl u a = hasUrl u b.
Proof.
  intros H. destruct (hasUrl u a) eqn:Ea, (hasUrl u b) eqn:Eb; try reflexivity.
  - apply hasUrl_urlOf in Ea. rewrite H in Ea. apply hasUrl_urlOf in Ea. congruence.
  - apply hasUrl_urlOf in Eb. rewrite <- H in Eb. apply hasUrl_urlOf in Eb. congruence.
Qed.

Lemma urlList_app (a b : list object) : urlList (a ++ b) = urlList a ++ urlList b.
Proof. unfold urlList. apply flat_map_app. Qed.

Lemma find_hasUrl_urlList (u : string) (store : list object) :
  isSome (find (hasUrl u) store) = existsb (String.eqb u) (urlList store).
Proof.
  induction store as [|ctx store IH]; cbn [find urlList flat_map].
  - reflexivity.
  - fold (urlList store). destruct (hasUrl u ctx) eqn:E.
    + apply hasUrl_urlOf in E. rewrite E. cbn. now rewrite String.eqb_refl.
    + destruct (urlOf ctx) as [v|] eqn:Ev; cbn [app existsb]; [|exact IH].
      destruct (String.eqb u v) eqn:Euv; [|exact IH].
      apply String.eqb_eq in Euv. subst v. apply hasUrl_urlOf in Ev. congruence.
Qed.

Lemma urlList_updateFirst (p : object -> bool) (f : object -> object) (store : list object) :
  (forall x, urlOf (f x) = urlOf x) ->
  urlList (updateFirst p f store) = urlList store.
Proof.
  intros Hf. induction store as [|ctx store IH]; cbn [updateFirst].
  - reflexivity.
  - destruct (p ctx); cbn [urlList flat_map].
    + now rewrite Hf.
    + fold (urlList (updateFirst p f store)). fold (urlList store). now rewrite IH.
Qed.

Lemma urlOf_mergeHookContext (pc found : object) :
  obj_has "url" pc = false -> urlOf (mergeHookContext pc found) = urlOf found.
Proof.
  unfold obj_has, urlOf, mergeHookContext. intros Hno.
  destruct (obj_get "url" pc) eqn:E; [discriminate|].
  rewrite obj_get_objectAssign_other; [reflexivity|].
  now rewrite obj_get_objectAssign_other.
Qed.

Lemma urlOf_newPageContext (file u : string) (g : object) :
  urlOf (newPageContext file u g) = Some u.
Proof. apply hasUrl_urlOf, hasUrl_newPageContext. Qed.

Lemma urlList_storeWith (file u : string) (s : State) :
  urlList (storeWith file u s) =
  if existsb (String.eqb u) (urlList (prerenderPageContexts s))
  then urlList (prerenderPageContexts s)
  else urlList (prerenderPageContexts s) ++ [u].
Proof.
  unfold storeWith. rewrite <- find_hasUrl_urlList.
  destruct (find (hasUrl u) (prerenderPageContexts s)); cbn [isSome].
  - reflexivity.
  - rewrite urlList_app. cbn [urlList flat_map]. rewrite urlOf_newPageContext.
    reflexivity.
Qed.

(** X4.  The store keeps one page context per URL.  When an entry whose
    pageContext does not write the url key is added, the URLs of the store
    are the ones before, with the entry's URL added last when it was not
    among them; so a store in which no two page contexts share a URL stays
    such a store. *)
Theorem addPrerenderEntry_one_context_per_url
  (file : string) (entry : PrerenderEntry) (s s' : State) :
  carriesNoUrl (pageContext entry) = true ->
  Pipeline.addPrerenderEntry file entry s = (s', Ok tt) ->
  urlList (prerenderPageContexts s') =
    (if existsb (String.eqb (url entry)) (urlList (prerenderPageContexts s))
     then urlList (prerenderPageContexts s)
     else urlList (prerenderPageContexts s) ++ [url entry])
  /\ (oneContextPerUrl (prerenderPageContexts s) ->
      oneContextPerUrl (prerenderPageContexts s')).
Proof.
  intros Hno Hrun. rewrite addPrerenderEntry_eval in Hrun.
  destruct (negb (startsWith (url entry) "/")); [discriminate|].
  assert (Hurls : urlList (prerenderPageContexts s') = urlList (storeWith file (url entry) s)).
  { destruct (pageContext entry) as [| | | | | | |pc]; try discriminate;
      injection Hrun as <-; cbn [prerenderPageContexts set_prerenderPageContexts].
    - reflexivity.
    - apply urlList_updateFirst. intros x. apply urlOf_mergeHookContext.
      cbn [carriesNoUrl] in Hno. now apply negb_true_iff in Hno. }
  rewrite Hurls, urlList_storeWith. split; [reflexivity|].
  unfold oneContextPerUrl. rewrite Hurls, urlList_storeWith.
  destruct (existsb (String.eqb (url entry)) (urlList (prerenderPageContexts s))) eqn:E;
    [auto|].
  intros Hnd. apply NoDup_app; [assumption | repeat constructor; intros [] |].
  intros u Hin [<- | []]. apply existsb_eqb_In in Hin. congruence.
Qed.

Lemma addPrerenderEntry_one_context_per_url_witness :
  urlList (prerenderPageContexts
             (fst (Pipeline.addPrerenderEntry "pages/a.page.server.js"
                     (mkEntry "/a" (VObj [("title"%string, VStr "A")])) emptyState))) =
    (if existsb (String.eqb (url (mkEntry "/a" (VObj [("title"%string, VStr "A")]))))
          (urlList (prerenderPageContexts emptyState))
     then urlList (prerenderPageContexts emptyState)
     else urlList (prerenderPageContexts emptyState)
          ++ [url (mkEntry "/a" (VObj [("title"%string, VStr "A")]))])
  /\ (oneContextPerUrl (prerenderPageContexts emptyState) ->
      oneContextPerUrl
        (prerenderPageContexts
           (fst (Pipeline.addPrerenderEntry "pages/a.page.server.js"
                   (mkEntry "/a" (VObj [("title"%string, VStr "A")])) emptyState)))).
Proof.
  apply (addPrerenderEntry_one_context_per_url "pages/a.page.server.js"
           (mkEntry "/a" (VObj [("title"%string, VStr "A")])) emptyState);
    reflexivity.
Defined.






Lemma updateFirst_snoc_new (p : object -> bool) (f : object -> object)
  (l : list object) (x : object) :
  find p l = None -> p x = true -> updateFirst p f (l ++ [x]) = l ++ [f x].
Proof.
  intros Hnone Hx. induction l as [|y l IH]; cbn [app updateFirst find] in *.
  - now rewrite Hx.
  - destruct (p y); [discriminate|]. now rewrite IH.
Qed.

(** X6.  The page context created for a URL that the store did not have is
    the global context with the URL, the hook file as provenance, and, for a
    record pageContext, the marker key and the record's keys on top: the
    record's keys win, then the marker, the URL and the provenance, and
    every other key reads as in the global context. *)
Theorem new_page_context_inherits_global_context
  (file u : string) (hookContext : value) (s s' : State) :
  find (hasUrl u) (prerenderPageContexts s) = None ->
  Pipeline.addPrerenderEntry file (mkEntry u hookContext) s = (s', Ok tt) ->
  exists ctx,
    prerenderPageContexts s' = prerenderPageContexts s ++ [ctx]
    /\ match hookContext with
       | VObj pc =>
           wf_obj pc = true ->
           forall k,
             obj_get k ctx =
             match obj_get k pc with
             | Some v => Some v
             | None =>
                 if String.eqb markerKey k then Some (VBool true)
                 else if String.eqb "url" k then Some (VStr u)
                 else if String.eqb "_prerenderSourceFile" k then Some (VStr file)
                 else obj_get k (globalContext s)
             end
       | _ =>
           forall k,
             obj_get k ctx =
             if String.eqb "url" k then Some (VStr u)
             else if String.eqb "_prerenderSourceFile" k then Some (VStr file)
             else obj_get k (globalContext s)
       end.
Proof.
  intros Hnone Hrun. rewrite addPrerenderEntry_eval in Hrun. cbn [url pageContext] in Hrun.
  destruct (negb (startsWith u "/")); [discriminate|].
  assert (Hst : storeWith file u s
                = prerenderPageContexts s ++ [newPageContext file u (globalContext s)]).
  { unfold storeWith. now rewrite Hnone. }
  assert (Hnew : forall k,
             obj_get k (newPageContext file u (globalContext s)) =
             if String.eqb "url" k then Some (VStr u)
             else if String.eqb "_prerenderSourceFile" k then Some (VStr file)
             else obj_get k (globalContext s)).
  { intros k. unfold newPageContext. now rewrite !obj_get_set. }
  destruct hookContext as [| | | | | | |pc]; try discriminate; injection Hrun as <-;
    cbn [prerenderPageContexts set_prerenderPageContexts]; rewrite Hst.
  - eexists. split; [reflexivity | exact Hnew].
  - rewrite updateFirst_snoc_new by (auto using hasUrl_newPageContext).
    eexists. split; [reflexivity|].
    intros Hwf k. rewrite obj_get_mergeHookContext by assumption.
    destruct (obj_get k pc); [reflexivity|].
    destruct (String.eqb markerKey k); [reflexivity | apply Hnew].
Qed.

Lemma new_page_context_inherits_global_context_witness :
  exists ctx,
    prerenderPageContexts
      (fst (Pipeline.addPrerenderEntry "pages/a.page.server.js" (mkEntry "/a" VNull)
              emptyState))
    = prerenderPageContexts emptyState ++ [ctx]
    /\ forall k,
         obj_get k ctx =
         if String.eqb "url" k then Some (VStr "/a")
         else if String.eqb "_prerenderSourceFile" k
              then Some (VStr "pages/a.page.server.js")
              else obj_get k (globalContext emptyState).
Proof.
  apply (new_page_context_inherits_global_context "pages/a.page.server.js" "/a" VNull
           emptyState);
    reflexivity.
Defined.

(** ** Phase 1 as a whole *)








Lemma bind_lift_ok {A B} (a : A) (k : A -> M B) (s : State) :
  bind (lift (Ok a)) k s = k a s.
Proof. reflexivity. Qed.

(** X8.  A prerender() hook that throws, or whose result has an invalid
    element anywhere, ends its unit of work with that error once the hook
    has been called, and with the store as it was: no entry of the result is
    added, not even the valid ones before the invalid one. *)
Theorem failed_hook_adds_nothing
  (call : nat -> list value -> outcome) (p : PageFile) (f : nat) (s : State) :
  isExcludedFile p = false ->
  fileExport p "prerender" = VFun f ->
  filePath p <> ""%string ->
  let called := set_calls (calls s ++ [(f, [])]) s in
  match call f [] with
  | Throws err => Pipeline.prerenderHookTask call p s = (called, Err (HookFailure err))
  | Returns r =>
      forall e,
        snd (Normalizer.normalizePrerenderResult (filePath p) r) = Err e ->
        Pipeline.prerenderHookTask call p s = (called, Err e)
  end.
Proof.
  unfold isExcludedFile. intros Hex Hhook Hpath. cbv zeta.
  unfold Pipeline.prerenderHookTask. rewrite Hex, Hhook. cbn [truthy negb isCallable].
  rewrite bind_assertUsage.
  assert (Hp : negb (String.eqb (filePath p) "") = true).
  { apply negb_true_iff. now apply String.eqb_neq. }
  rewrite Hp. cbn [assert]. rewrite bind_lift_ok, bind_invoke.
  destruct (call f []) as [r|err]; [|reflexivity].
  intros e He. unfold bind, lift. now rewrite He.
Qed.


Lemma failed_hook_adds_nothing_witness :
  Pipeline.prerenderHookTask (fun _ _ => Throws (VStr "boom"))
    (mkPageFile ".page.server" false "pages/a.page.server.js" "/pages/a"
       (Some [("prerender"%string, VFun 0)])) emptyState
  = (set_calls (calls emptyState ++ [(0, [])]) emptyState, Err (HookFailure (VStr "boom"))).
Proof.
  apply (failed_hook_adds_nothing (fun _ _ => Throws (VStr "boom"))
           (mkPageFile ".page.server" false "pages/a.page.server.js" "/pages/a"
              (Some [("prerender"%string, VFun 0)])) 0 emptyState).
  - reflexivity.
  - reflexivity.
  - discriminate.
Defined.

(** ** The URLs of the store after phase 1 *)












(** ** Phase 2: pages with a static route *)

Section StaticRoutes.

Variable loadPageFilesServer : object -> object.
Variable isStaticRoute : string -> bool.

Lemma staticRouteTask_eval (pageRoute : PageRoute) (s : State) :
  Pipeline.staticRouteTask loadPageFilesServer isStaticRoute pageRoute s =
  if isSome (inDoNotPrerenderList (doNotPrerenderList s) (pr_pageId pageRoute)) then (s, Ok tt)
  else
    match staticUrl isStaticRoute pageRoute with
    | None => (s, Ok tt)
    | Some u =>
        if negb (startsWith u "/") then (s, Err AssertionFailure)
        else if isSome (find (hasUrl u) (prerenderPageContexts s)) then (s, Ok tt)
        else
          (set_prerenderPageContexts
             (prerenderPageContexts s
              ++ [staticPageContext loadPageFilesServer (globalContext s)
                    (pr_pageId pageRoute) u]) s,
           Ok tt)
    end.
Proof.
  unfold Pipeline.staticRouteTask, staticUrl. rewrite bind_get.
  destruct (isSome (inDoNotPrerenderList (doNotPrerenderList s) (pr_pageId pageRoute)));
    [reflexivity|].
  destruct (pageRouteFile pageRoute) as [[| | | |r| | |]|]; try reflexivity.
  - destruct (isStaticRoute r); [|reflexivity].
    unfold bind, lift, assert, bindR.
    destruct (startsWith r "/") eqn:Hr; cbn [negb]; [|reflexivity].
    rewrite Hr.
    destruct (isSome (find (hasUrl r) (prerenderPageContexts s))); reflexivity.
  - unfold bind, lift, assert.
    destruct (startsWith (filesystemRoute pageRoute) "/"); cbn [negb]; [|reflexivity].
    destruct (isSome (find (hasUrl (filesystemRoute pageRoute)) (prerenderPageContexts s)));
      reflexivity.
Qed.

Lemma discoveredFrom_more (l l' : list PageRoute) (ex : DoNotPrerenderList) (g ctx : object) :
  (forall x, In x l -> In x l') ->
  discoveredFrom loadPageFilesServer isStaticRoute l ex g ctx ->
  discoveredFrom loadPageFilesServer isStaticRoute l' ex g ctx.
Proof.
  intros Hsub (pr & u & Hin & H). exists pr, u. split; auto.
Qed.

(** X9.  Static-route discovery only appends to the store: the page contexts
    that were there (those of the hooks) stay as they are and where they
    are, and nothing else of the state changes, also when the phase fails.
    Every page context it adds is the one of a page route that is not in the
    exclusion list and has a static URL starting with a slash. *)
Theorem handlePagesWithStaticRoutes_only_appends (pageRoutes : list PageRoute) (s : State) :
  exists added,
    fst (Pipeline.handlePagesWithStaticRoutes loadPageFilesServer isStaticRoute pageRoutes s)
    = set_prerenderPageContexts (prerenderPageContexts s ++ added) s
    /\ Forall (discoveredFrom loadPageFilesServer isStaticRoute pageRoutes
                 (doNotPrerenderList s) (globalContext s)) added.
Proof.
  unfold Pipeline.handlePagesWithStaticRoutes.
  revert s. induction pageRoutes as [|pageRoute rest IH]; intros s; cbn [forEachM].
  - exists []. cbn [fst ret]. rewrite app_nil_r, set_prerenderPageContexts_same.
    split; [reflexivity | constructor].
  - assert (Hskip : exists added,
               fst (forEachM (Pipeline.staticRouteTask loadPageFilesServer isStaticRoute)
                      rest s)
               = set_prerenderPageContexts (prerenderPageContexts s ++ added) s
               /\ Forall (discoveredFrom loadPageFilesServer isStaticRoute (pageRoute :: rest)
                            (doNotPrerenderList s) (globalContext s)) added).
    { destruct (IH s) as (added & Hs & Hall). exists added. split; [assumption|].
      eapply Forall_impl; [|exact Hall]. intros ctx. apply discoveredFrom_more.
      intros x; now right. }
    unfold bind. rewrite staticRouteTask_eval.
    destruct (isSome (inDoNotPrerenderList (doNotPrerenderList s) (pr_pageId pageRoute)))
      eqn:Hex; [exact Hskip|].
    destruct (staticUrl isStaticRoute pageRoute) as [u|] eqn:Hu; [|exact Hskip].
    destruct (startsWith u "/") eqn:Hslash; cbn [negb].
    2:{ exists []. cbn [fst]. rewrite app_nil_r, set_prerenderPageContexts_same.
        split; [reflexivity | constructor]. }
    destruct (isSome (find (hasUrl u) (prerenderPageContexts s))) eqn:Hfound;
      [exact Hskip|].
    set (ctx := staticPageContext loadPageFilesServer (globalContext s)
                  (pr_pageId pageRoute) u).
    destruct (IH (set_prerenderPageContexts (prerenderPageContexts s ++ [ctx]) s))
      as (added & Hs & Hall).
    cbn [prerenderPageContexts set_prerenderPageContexts doNotPrerenderList globalContext]
      in Hs, Hall.
    exists (ctx :: added). split.
    + rewrite Hs. destruct s. cbn. now rewrite <- app_assoc.
    + constructor.
      * exists pageRoute, u. split; [now left|].
        split; [now destruct (inDoNotPrerenderList _ _)|]. auto.
      * eapply Forall_impl; [|exact Hall]. intros c. apply discoveredFrom_more.
        intros x; now right.
Qed.




End StaticRoutes.


(** ** Phase 4: routing and rendering *)

Section Routing.

Variable route : object -> RouteResult.
Variable loadPageFilesServer : object -> object.
Variable prerenderPage : object -> result (string * option string).


(** X11.  A page context that the routing resolver matches to no page ends
    the unit of work before anything is rendered: with a usage error that
    names the URL and the hook file when a hook contributed the URL, on the
    internal assertion when none did.  A fault of the resolver is thrown as
    it is.  The state is as it was in each case. *)
Theorem unmatched_url_aborts (acc : list HtmlFile * PrerenderedPageIds) (i : nat)
  (s : State) (ctx : object) :
  nth_error (prerenderPageContexts s) i = Some ctx ->
  match route ctx with
  | RouteHookError err => Pipeline.routeTask route loadPageFilesServer prerenderPage acc i s = (s, Err (HookFailure err))
  | RouteAddendum addendum =>
      obj_get "_pageId" addendum = Some VNull ->
      match getProp (VObj ctx) "_prerenderSourceFile" with
      | VStr file =>
          file <> ""%string ->
          exists msg,
            Pipeline.routeTask route loadPageFilesServer prerenderPage acc i s = (s, Err (UsageError msg))
            /\ mentions msg file
            /\ mentions msg (Normalizer.asString (getProp (VObj ctx) "url"))
      | VNull | VUndefined => Pipeline.routeTask route loadPageFilesServer prerenderPage acc i s = (s, Err AssertionFailure)
      | _ => True
      end
  end.
Proof.
  intros Hnth. unfold Pipeline.routeTask. rewrite bind_get, Hnth.
  destruct (route ctx) as [err|addendum]; [reflexivity|].
  intros Hpid.
  assert (Hnull : hasPropOfType (VObj addendum) "_pageId" "null" = true).
  { unfold hasPropOfType, hasProp, obj_has, getProp. now rewrite Hpid. }
  assert (Hget : getProp (VObj addendum) "_pageId" = VNull).
  { unfold getProp. now rewrite Hpid. }
  unfold bind at 1, lift at 1. rewrite Hnull. cbn [orb assert].
  rewrite Hget. cbn [isNull].
  destruct (getProp (VObj ctx) "_prerenderSourceFile") as [| | | |file| | |] eqn:Hsrc;
    try exact I; try reflexivity.
  intros Hfile.
  assert (Ht : negb (String.eqb file "") = true).
  { apply negb_true_iff. now apply String.eqb_neq. }
  eexists. split.
  - unfold bind, lift. cbn [truthy]. rewrite Ht. reflexivity.
  - unfold Pipeline.msgNoRoute. cbn [Normalizer.asString]. split; auto 8 with msgs.
Qed.








End Routing.

Lemma unmatched_url_aborts_witness :
  exists msg,
    Pipeline.routeTask (fun _ => RouteAddendum [("_pageId"%string, VNull)])
      Demo.loadPageFilesServer Demo.prerenderPage ([], []) 0
      (set_prerenderPageContexts
         [[("_prerenderSourceFile"%string, VStr "pages/a.page.server.js");
           ("url"%string, VStr "/missing")]] emptyState)
    = (set_prerenderPageContexts
         [[("_prerenderSourceFile"%string, VStr "pages/a.page.server.js");
           ("url"%string, VStr "/missing")]] emptyState,
       Err (UsageError msg))
    /\ mentions msg "pages/a.page.server.js"
    /\ mentions msg
         (Normalizer.asString
            (getProp (VObj [("_prerenderSourceFile"%string, VStr "pages/a.page.server.js");
                            ("url"%string, VStr "/missing")]) "url")).
Proof.
  apply (unmatched_url_aborts (fun _ => RouteAddendum [("_pageId"%string, VNull)])
           Demo.loadPageFilesServer Demo.prerenderPage ([], []) 0
           (set_prerenderPageContexts
              [[("_prerenderSourceFile"%string, VStr "pages/a.page.server.js");
                ("url"%string, VStr "/missing")]] emptyState)
           [("_prerenderSourceFile"%string, VStr "pages/a.page.server.js");
            ("url"%string, VStr "/missing")]).
  - reflexivity.
  - reflexivity.
  - discriminate.
Defined.


(** ** Phase 5: the 404 page *)





(** ** The output writer *)

Section Writer.

Variable call : nat -> list value -> outcome.
Variable getFileUrl : string -> string -> bool -> string.
Variable join : list string -> string.

Lemma write_ok (u : string) (pageContext : object) (fileExtension fileContent root : string)
  (flag : bool) (onPagePrerender : option nat) (s s' : State) :
  Pipeline.write call getFileUrl join u pageContext fileExtension fileContent root flag
    onPagePrerender s = (s', Ok tt) ->
  exists out newCalls,
    s' = set_events (events s ++ [out]) (set_calls (calls s ++ newCalls) s)
    /\ outputContent out = fileContent
    /\ match onPagePrerender with
       | None => newCalls = [] /\ isWrite out
       | Some f => (exists arg, newCalls = [(f, [arg])]) /\ isSink out
       end.
Proof.
  unfold Pipeline.write. cbv zeta.
  unfold bind at 1, lift at 1.
  destruct (assert (startsWith _ "/")) as [[]|e]; [|discriminate].
  unfold bind at 1, lift at 1.
  destruct (assert (negb (startsWith _ "/"))) as [[]|e]; [|discriminate].
  destruct onPagePrerender as [f|].
  - rewrite bind_invoke. destruct (call f _) as [r|err]; [|discriminate].
    intros [= <-]. eexists. eexists. split; [reflexivity|].
    split; [reflexivity|]. split; [eexists; reflexivity | exact I].
  - intros [= <-]. eexists. exists []. split.
    + destruct s. cbn. now rewrite app_nil_r.
    + split; [reflexivity|]. split; [reflexivity | exact I].
Qed.

Lemma writeHtmlFile_ok (root : string) (dnp : DoNotPrerenderList)
  (onPagePrerender : option nat) (h : HtmlFile) (s s' : State) :
  Pipeline.writeHtmlFile call getFileUrl join root dnp onPagePrerender h s = (s', Ok tt) ->
  startsWith (hf_url h) "/" = true
  /\ (forall id, hf_pageId h = Some id -> inDoNotPrerenderList dnp id = None)
  /\ exists outs newCalls,
       s' = set_events (events s ++ outs) (set_calls (calls s ++ newCalls) s)
       /\ map outputContent outs = contentsOf h
       /\ match onPagePrerender with
          | None => newCalls = [] /\ Forall isWrite outs
          | Some f =>
              length newCalls = length outs
              /\ Forall (fun c => fst c = f) newCalls
              /\ Forall isSink outs
          end.
Proof.
  unfold Pipeline.writeHtmlFile.
  unfold bind at 1, lift at 1, assert at 1.
  destruct (startsWith (hf_url h) "/"); [|discriminate].
  unfold bind at 1, lift at 1, assert at 1.
  destruct (negb _) eqn:Hex; [|discriminate].
  intros Hrun. split; [reflexivity|]. split.
  { intros id Hid. rewrite Hid in Hex. apply negb_true_iff in Hex.
    now destruct (inDoNotPrerenderList dnp id). }
  unfold bind in Hrun.
  destruct (Pipeline.write call getFileUrl join (hf_url h) (hf_pageContext h) ".html" _ _ _ _ s)
    as [s1 [[]|e]] eqn:Hw1; [|discriminate].
  apply write_ok in Hw1. destruct Hw1 as (out1 & calls1 & -> & Hc1 & Hk1).
  unfold contentsOf.
  destruct (pageContextSerialized h) as [serialized|].
  - apply write_ok in Hrun. destruct Hrun as (out2 & calls2 & -> & Hc2 & Hk2).
    exists [out1; out2], (calls1 ++ calls2). split.
    + destruct s. cbn. now rewrite <- !app_assoc.
    + split; [cbn [map]; now rewrite Hc1, Hc2|].
      destruct onPagePrerender as [f|].
      * destruct Hk1 as ((a1 & ->) & Hs1). destruct Hk2 as ((a2 & ->) & Hs2).
        split; [reflexivity|]. split; repeat constructor; assumption.
      * destruct Hk1 as (-> & Hw1). destruct Hk2 as (-> & Hw2).
        split; [reflexivity | repeat constructor; assumption].
  - injection Hrun as <-.
    exists [out1], calls1. split; [reflexivity|].
    split; [cbn [map]; now rewrite Hc1|].
    destruct onPagePrerender as [f|].
    + destruct Hk1 as ((a1 & ->) & Hs1).
      split; [reflexivity|]. split; repeat constructor; assumption.
    + destruct Hk1 as (-> & Hw1). split; [reflexivity | repeat constructor; assumption].
Qed.

(** X14.  A document that [writeHtmlFile] accepts has a URL starting with a
    slash and a page id that is not excluded.  Its outputs are the body and
    then, when there is one, the serialized page context, and nothing else;
    without a sink they are written and no user function is called, with a
    sink each is handed to the sink, once, and nothing is written.  Nothing
    else of the state changes. *)
Theorem writeHtmlFile_writes_or_sinks (root : string) (dnp : DoNotPrerenderList)
  (onPagePrerender : option nat) (h : HtmlFile) (s s' : State) :
  Pipeline.writeHtmlFile call getFileUrl join root dnp onPagePrerender h s = (s', Ok tt) ->
  startsWith (hf_url h) "/" = true
  /\ (forall id, hf_pageId h = Some id -> inDoNotPrerenderList dnp id = None)
  /\ exists outs newCalls,
       s' = set_events (events s ++ outs) (set_calls (calls s ++ newCalls) s)
       /\ map outputContent outs = contentsOf h
       /\ match onPagePrerender with
          | None => newCalls = [] /\ Forall isWrite outs
          | Some f =>
              length newCalls = length outs
              /\ Forall (fun c => fst c = f) newCalls
              /\ Forall isSink outs
          end.
Proof.
  intros Hrun. exact (writeHtmlFile_ok root dnp onPagePrerender h s s' Hrun).
Qed.

End Writer.

Lemma writeHtmlFile_writes_or_sinks_witness :
  let h := mkHtmlFile "/about" [] "<html>about</html>" (Some "{}"%string) false
             (Some "/pages/about"%string) in
  startsWith (hf_url h) "/" = true
  /\ (forall id, hf_pageId h = Some id -> inDoNotPrerenderList [] id = None)
  /\ exists outs newCalls,
       fst (Pipeline.writeHtmlFile Demo.call Demo.getFileUrl Demo.join "/app" [] None h
              emptyState)
       = set_events (events emptyState ++ outs) (set_calls (calls emptyState ++ newCalls)
                                                   emptyState)
       /\ map outputContent outs = contentsOf h
       /\ newCalls = [] /\ Forall isWrite outs.
Proof.
  apply (writeHtmlFile_writes_or_sinks Demo.call Demo.getFileUrl Demo.join "/app" [] None
           (mkHtmlFile "/about" [] "<html>about</html>" (Some "{}"%string) false
              (Some "/pages/about"%string)) emptyState).
  vm_compute. reflexivity.
Defined.

(** ** A whole run *)



Section WholeRunOutputs.

Variable call : nat -> list value -> outcome.
Variable route : object -> RouteResult.
Variable loadPageFilesServer : object -> object.
Variable prerenderPage : object -> result (string * option string).
Variable renderStatic404Page : object -> option (string * object).
Variable getFileUrl : string -> string -> bool -> string.
Variable isErrorPage : string -> bool.
Variable isStaticRoute : string -> bool.
Variable join : list string -> string.



(** X16.  Once the deprecated options have been let through, a run fails
    before any hook is called or anything is rendered when Vite found no
    configuration file (a usage error naming the root), when the
    configuration does not have the plugin (a usage error naming the
    configuration file), or when the prerender settings are refused (the
    error of that check). *)
Theorem prerender_needs_its_configuration
  (setup : Pipeline.Setup) (onPagePrerender : option nat)
  (pageContextInit : option object) (deprecatedOptions : Pipeline.Options)
  (s s1 : State) :
  Pipeline.checkOutdatedOptions deprecatedOptions s = (s1, Ok tt) ->
  let outcome :=
    run call route loadPageFilesServer prerenderPage renderStatic404Page getFileUrl
      isErrorPage isStaticRoute join setup onPagePrerender pageContextInit
      deprecatedOptions s in
  match Pipeline.configFile setup with
  | None =>
      exists msg, outcome = (s1, Err (UsageError msg))
                  /\ mentions msg (Pipeline.viteRoot setup)
  | Some file =>
      (Pipeline.hasVitePluginSsr setup = false ->
       exists msg, outcome = (s1, Err (UsageError msg)) /\ mentions msg file)
      /\ (Pipeline.hasVitePluginSsr setup = true ->
          forall e, Pipeline.vitePluginSsrConfig setup = Err e -> outcome = (s1, Err e))
  end.
Proof.
  intros Hopts. cbv zeta.
  assert (Hhead : forall k : unit -> M unit,
             bind (Pipeline.checkOutdatedOptions deprecatedOptions) k s = k tt s1).
  { intros k. unfold bind. now rewrite Hopts. }
  unfold run, Pipeline.prerender. cbv zeta. rewrite Hhead.
  destruct (Pipeline.configFile setup) as [file|].
  - cbn [isSome Pipeline.orDefault]. rewrite bind_assertUsage. cbv beta iota.
    rewrite bind_assertUsage. split.
    + intros Hno. rewrite Hno. eexists. split; [reflexivity|].
      unfold Pipeline.msgNoPlugin. auto with msgs.
    + intros Hyes e He. rewrite Hyes. unfold bind at 1, lift at 1. now rewrite He.
  - cbn [isSome]. rewrite bind_assertUsage. eexists. split; [reflexivity|].
    unfold Pipeline.msgNoConfig. auto with msgs.
Qed.

End WholeRunOutputs.


Lemma prerender_needs_its_configuration_witness :
  exists msg,
    Demo.prerender setupWithoutConfig None None noDeprecatedOptions emptyState
    = (emptyState, Err (UsageError msg))
    /\ mentions msg (Pipeline.viteRoot setupWithoutConfig).
Proof.
  apply (prerender_needs_its_configuration Demo.call Demo.route Demo.loadPageFilesServer
           Demo.prerenderPage Demo.renderStatic404Page Demo.getFileUrl Demo.isErrorPage
           Demo.isStaticRoute Demo.join setupWithoutConfig None None noDeprecatedOptions
           emptyState emptyState).
  reflexivity.
Defined.

(** ** The page files of the dev server *)

(** X17.  Without a dev server [getPageFilesExports] fails on its assertion.
    With one, it loads the virtual page-files module: a failure of the load
    is thrown as it is; otherwise the result is the module's default export
    when that is truthy and the module namespace itself when it is not, so
    the result is never falsy and the assertion on it never fails. *)
Theorem getPageFilesExports_outcome :
  PageFilesSetup.getPageFilesExports None = Err AssertionFailure
  /\ forall server,
       match PageFilesSetup.ssrLoadModule server PageFilesSetup.virtualModuleId with
       | Err e => PageFilesSetup.getPageFilesExports (Some server) = Err e
       | Ok moduleExports =>
           exists r,
             PageFilesSetup.getPageFilesExports (Some server) = Ok r
             /\ truthy r = true
             /\ r = (if truthy (getProp (VObj moduleExports) "default")
                     then getProp (VObj moduleExports) "default"
                     else VObj moduleExports)
       end.
Proof.
  split; [reflexivity|]. intros server.
  unfold PageFilesSetup.getPageFilesExports, PageFilesSetup.dev.
  destruct (PageFilesSetup.ssrLoadModule server PageFilesSetup.virtualModuleId)
    as [moduleExports|e]; cbn [bindR]; [|reflexivity].
  destruct (truthy (getProp (VObj moduleExports) "default")) eqn:Hd.
  - rewrite Hd. cbn [assert bindR]. eexists. split; [reflexivity|]. auto.
  - cbn [truthy assert bindR]. eexists. split; [reflexivity|]. auto.
Qed.

(** ** The deprecated entry point *)

Lemma warnOnce_again (msg : string) (s : State) :
  In msg (warned s) -> warnOnce msg s = s.
Proof.
  intros Hin. unfold warnOnce. apply existsb_eqb_In in Hin. now rewrite Hin.
Qed.

(** X18.  The [prerender] of the cli module does what the original does,
    from the state in which its deprecation warning has been printed; the
    warning is printed once, so that a later call through the cli module
    is the original call. *)
Theorem cli_prerender_warns_then_delegates
  (call : nat -> list value -> outcome) (route : object -> RouteResult)
  (loadPageFilesServer : object -> object)
  (prerenderPage : object -> result (string * option string))
  (renderStatic404Page : object -> option (string * object))
  (getFileUrl : string -> string -> bool -> string)
  (isErrorPage isStaticRoute : string -> bool) (join : list string -> string)
  (setup : Pipeline.Setup) (onPagePrerender : option nat)
  (pageContextInit : option object) (deprecatedOptions : Pipeline.Options) (s : State) :
  let original :=
    run call route loadPageFilesServer prerenderPage renderStatic404Page getFileUrl
      isErrorPage isStaticRoute join setup onPagePrerender pageContextInit
      deprecatedOptions in
  let viaCli :=
    Cli.prerender call route loadPageFilesServer prerenderPage renderStatic404Page
      getFileUrl isErrorPage isStaticRoute join setup onPagePrerender pageContextInit
      deprecatedOptions in
  viaCli s = original (warnOnce Cli.msgDeprecatedImport s)
  /\ In Cli.msgDeprecatedImport (warned (warnOnce Cli.msgDeprecatedImport s))
  /\ sameButWarned s (warnOnce Cli.msgDeprecatedImport s)
  /\ (In Cli.msgDeprecatedImport (warned s) -> viaCli s = original s).
Proof.
  cbv zeta. unfold Cli.prerender, run.
  destruct (warnOnce_spec Cli.msgDeprecatedImport s) as (Hsame & Hin & _).
  split; [|split; [assumption|split; [assumption|]]].
  - now rewrite bind_assertWarning.
  - intros Hold. rewrite bind_assertWarning. cbv iota. now rewrite warnOnce_again.
Qed.

(** ** More on the hook normalizer *)

Module NormalizerMore.
Import Normalizer.

Lemma mapNormalize_ok (file : string) (items : list value) (entries : list PrerenderEntry) :
  snd (mapNormalize file items) = Ok entries
  <-> Forall2 (fun el entry => snd (normalize file el) = Ok entry) items entries.
Proof.
  revert entries. induction items as [|x rest IH]; intros entries; cbn [mapNormalize].
  - split.
    + intros [= <-]. constructor.
    + intros H. inversion H. reflexivity.
  - destruct (normalize file x) as [x' [entry|e]] eqn:Ex.
    + destruct (mapNormalize file rest) as [rest' [ens|e]] eqn:Er; cbn [snd bindR] in *.
      * split.
        -- intros [= <-]. constructor; [now rewrite Ex | now apply IH].
        -- intros H. inversion H as [|? ? ? ? Hx Hrest]; subst.
           rewrite Ex in Hx. cbn in Hx. injection Hx as <-.
           apply IH in Hrest. congruence.
      * split; [discriminate|].
        intros H. inversion H as [|? ? ? ? Hx Hrest]; subst.
        apply IH in Hrest. discriminate.
    + cbn [snd]. split; [discriminate|].
      intros H. inversion H as [|? ? ? ? Hx Hrest]; subst.
      rewrite Ex in Hx. discriminate.
Qed.

Lemma mapNormalize_err (file : string) (items : list value) (e : error) :
  snd (mapNormalize file items) = Err e
  <-> exists before el after,
        items = before ++ el :: after
        /\ Forall (fun x => exists entry, snd (normalize file x) = Ok entry) before
        /\ snd (normalize file el) = Err e.
Proof.
  induction items as [|x rest IH]; cbn [mapNormalize].
  - split; [discriminate|].
    intros (before & el & after & H & _). now destruct before.
  - destruct (normalize file x) as [x' [entry|e']] eqn:Ex.
    + destruct (mapNormalize file rest) as [rest' [ens|e'']] eqn:Er; cbn [snd bindR] in *.
      * split; [discriminate|].
        intros (before & el & after & Hitems & Hbefore & Hel).
        destruct before as [|b before]; cbn [app] in Hitems; injection Hitems as -> ->.
        -- rewrite Ex in Hel. discriminate.
        -- inversion Hbefore; subst.
           assert (Hr : @Ok (list PrerenderEntry) ens = Err e); [|discriminate].
           apply IH. now exists before, el, after.
      * split.
        -- intros He. apply IH in He. destruct He as (before & el & after & -> & Hb & Hel).
           exists (x :: before), el, after. split; [reflexivity|].
           split; [|assumption]. constructor; [|assumption].
           exists entry. now rewrite Ex.
        -- intros (before & el & after & Hitems & Hbefore & Hel).
           destruct before as [|b before]; cbn [app] in Hitems; injection Hitems as -> ->.
           ++ rewrite Ex in Hel. discriminate.
           ++ inversion Hbefore; subst. apply IH. now exists before, el, after.
    + cbn [snd]. split.
      * intros [= ->]. exists [], x, rest. split; [reflexivity|].
        split; [constructor | now rewrite Ex].
      * intros (before & el & after & Hitems & Hbefore & Hel).
        destruct before as [|b before]; cbn [app] in Hitems; injection Hitems as -> ->.
        -- rewrite Ex in Hel. cbn in Hel. congruence.
        -- inversion Hbefore as [|? ? (en & Hen) _]; subst.
           rewrite Ex in Hen. discriminate.
Qed.

(** X19.  Normalizing an array is normalizing its elements one by one, in
    order: it gives the pairs of the elements when every element is
    accepted (none for the empty array), and otherwise throws the error of
    the first element that is refused. *)
Theorem normalizePrerenderResult_elementwise (file : string) (items : list value) :
  (forall entries,
      snd (normalizePrerenderResult file (VArr items)) = Ok entries
      <-> Forall2 (fun el entry => snd (normalize file el) = Ok entry) items entries)
  /\ (forall e,
         snd (normalizePrerenderResult file (VArr items)) = Err e
         <-> exists before el after,
               items = before ++ el :: after
               /\ Forall (fun x => exists entry, snd (normalize file x) = Ok entry) before
               /\ snd (normalize file el) = Err e).
Proof.
  unfold normalizePrerenderResult.
  pose proof (mapNormalize_ok file items) as Hok.
  pose proof (mapNormalize_err file items) as Herr.
  destruct (mapNormalize file items) as [items' r]. cbn [snd] in *. now split.
Qed.

Lemma find_allowed_app (ks : list string) (k : string) :
  find (fun key => negb (allowedKey key)) ks = None ->
  allowedKey k = true ->
  find (fun key => negb (allowedKey key)) (ks ++ [k]) = None.
Proof.
  intros Hks Hk. induction ks as [|k0 ks IH]; cbn [app find] in *.
  - now rewrite Hk.
  - destruct (negb (allowedKey k0)); [discriminate | auto].
Qed.

Lemma normalize_fixed (file : string) (el el' : value) (r : result PrerenderEntry) :
  normalize file el = (el', r) -> normalize file el' = (el', r).
Proof.
  destruct el as [| | | | | | |o]; try (now intros [= <- <-]).
  unfold normalize. cbn [isPlainObject negb hasProp].
  destruct (obj_has "url" o) eqn:Hurl; cbn [negb].
  2:{ intros [= <- <-]. cbn [isPlainObject negb hasProp]. now rewrite Hurl. }
  destruct (hasPropOfType (VObj o) "url" "string") eqn:Hstr; cbn [negb].
  2:{ intros [= <- <-]. cbn [isPlainObject negb hasProp]. now rewrite Hurl, Hstr. }
  destruct (startsWith (asString (getProp (VObj o) "url")) "/") eqn:Hslash; cbn [negb].
  2:{ intros [= <- <-]. cbn [isPlainObject negb hasProp].
      now rewrite Hurl, Hstr, Hslash. }
  destruct (find (fun key => negb (allowedKey key)) (obj_keys o)) eqn:Hkeys.
  { intros [= <- <-]. cbn [isPlainObject negb hasProp].
    now rewrite Hurl, Hstr, Hslash, Hkeys. }
  destruct (obj_has "pageContext" o) eqn:Hpc; cbn [negb].
  - destruct (hasPropOfType (VObj o) "pageContext" "object") eqn:Hobj; cbn [negb];
      intros [= <- <-]; cbn [isPlainObject negb hasProp];
      rewrite Hurl, Hstr, Hslash, Hkeys, Hpc; cbn [negb]; now rewrite Hobj.
  - cbn [setProp].
    assert (Hset : obj_set "pageContext" VNull o = o ++ [("pageContext"%string, VNull)])
      by now apply obj_set_absent.
    assert (Hgeturl : obj_get "url" (obj_set "pageContext" VNull o) = obj_get "url" o).
    { now rewrite obj_get_set. }
    assert (Hgetpc : obj_get "pageContext" (obj_set "pageContext" VNull o) = Some VNull).
    { now rewrite obj_get_set. }
    assert (Hobj : hasPropOfType (VObj (obj_set "pageContext" VNull o)) "pageContext" "object"
                   = true).
    { unfold hasPropOfType, hasProp, obj_has, getProp. now rewrite Hgetpc. }
    assert (Hurl' : obj_has "url" (obj_set "pageContext" VNull o) = true).
    { unfold obj_has in *. now rewrite Hgeturl. }
    assert (Hstr' : hasPropOfType (VObj (obj_set "pageContext" VNull o)) "url" "string"
                    = true).
    { unfold hasPropOfType, hasProp, obj_has, getProp in *. now rewrite Hgeturl. }
    assert (Hgp : getProp (VObj (obj_set "pageContext" VNull o)) "url"
                  = getProp (VObj o) "url").
    { unfold getProp. now rewrite Hgeturl. }
    assert (Hpc' : obj_has "pageContext" (obj_set "pageContext" VNull o) = true).
    { unfold obj_has. now rewrite Hgetpc. }
    assert (Hkeys' : find (fun key => negb (allowedKey key))
                       (obj_keys (obj_set "pageContext" VNull o)) = None).
    { rewrite Hset. unfold obj_keys. rewrite map_app. cbn [map fst].
      now apply find_allowed_app. }
    rewrite Hobj. cbn [negb]. intros [= <- <-].
    cbn [isPlainObject negb hasProp].
    rewrite Hurl', Hstr', Hgp, Hslash, Hkeys', Hpc'. cbn [negb].
    now rewrite Hobj.
Qed.

Lemma normalize_again (file : string) (el : value) :
  normalize file (fst (normalize file el)) = normalize file el.
Proof.
  destruct (normalize file el) as [el' r] eqn:E. cbn [fst].
  now apply normalize_fixed with (el := el).
Qed.

Lemma mapNormalize_again (file : string) (items : list value) :
  mapNormalize file (fst (mapNormalize file items)) = mapNormalize file items.
Proof.
  induction items as [|x rest IH]; cbn [mapNormalize]; [reflexivity|].
  pose proof (normalize_again file x) as Hx.
  destruct (normalize file x) as [x' [entry|e]] eqn:Ex; cbn [fst] in Hx.
  - destruct (mapNormalize file rest) as [rest' r] eqn:Er. cbn [fst] in *.
    cbn [mapNormalize]. now rewrite Hx, IH.
  - cbn [fst mapNormalize]. now rewrite Hx.
Qed.

(** X20.  Normalizing a hook result that has been normalized before gives
    the same outcome and changes the value no further: the one write the
    normalizer makes is made once. *)
Theorem normalizePrerenderResult_again (file : string) (prerenderResult : value) :
  normalizePrerenderResult file (fst (normalizePrerenderResult file prerenderResult))
  = normalizePrerenderResult file prerenderResult.
Proof.
  unfold normalizePrerenderResult at 2 3.
  destruct prerenderResult as [| | | | | |items|o];
    try reflexivity.
  - pose proof (mapNormalize_again file items) as H.
    destruct (mapNormalize file items) as [items' r]. cbn [fst] in *.
    unfold normalizePrerenderResult. now rewrite H.
  - pose proof (normalize_again file (VObj o)) as H.
    pose proof (normalize_frame file (VObj o)) as Hf.
    destruct (normalize file (VObj o)) as [el' r]. cbn [fst] in *.
    destruct Hf as [-> | (o' & _ & _ & ->)];
      unfold normalizePrerenderResult; now rewrite H.
Qed.

End NormalizerMore.
